(** * MyLinearSimilarity: a shallow embedding of
    [allennlp/modules/similarity_functions/mylinear.py]

    The module is a thin layer of shape checks over a tensor library, so the
    embedding has three layers:

    - Python's exceptions as an error monad ([result]), with the allocation
      log and the random generator threaded as explicit state ([M]);
    - the tensor operations the module calls ([torch.matmul], [unsqueeze],
      [permute], broadcasting [*] and [+], slicing), on tensors that carry
      their shape next to their entries, each operation raising
      [RuntimeError] where the library rejects the shapes;
    - the class itself: [__init__], [reset_parameters], [forward] and
      [from_params], statement by statement.

    Entries are taken in an arbitrary scalar type with a zero, an addition
    and a multiplication ([Scalar]); no law is assumed of them, sums run from
    index [0] upwards.  The parameters of a constructed scorer live in an
    arithmetic of their own ([ParamArith]): the single precision of the
    tensors, with every operation rounded, or the exact reals. *)

From Stdlib Require Import ZArith List String Ascii Reals Lra Lia.
From Stdlib Require Import DecimalString DecimalZ SpecFloat.
From stdpp Require Import gmap strings.
Import ListNotations.

(** ** Exceptions and the error monad *)

Inductive exn : Type :=
| AssertionError (msg : option string)
| ZeroDivisionError
| RuntimeError
| ConfigurationError
| ValueError
| AttributeError.

Inductive result (X : Type) : Type :=
| Ok (x : X)
| Raise (e : exn).
Arguments Ok {X} x.
Arguments Raise {X} e.

#[export] Instance result_ret : MRet result := fun X x => Ok x.
#[export] Instance result_bind : MBind result := fun X Y k m =>
  match m with
  | Ok x => k x
  | Raise e => Raise e
  end.

(** [assert c, msg]: the message is attached only when the source gives one. *)
Definition py_assert (c : bool) (msg : option string) : result unit :=
  if c then Ok tt else Raise (AssertionError msg).

(** [a // b] and [a % b] on non-negative integers. *)
Definition floordiv (a b : nat) : result nat :=
  if b =? 0 then Raise ZeroDivisionError else Ok (a / b).

Definition py_mod (a b : nat) : result nat :=
  if b =? 0 then Raise ZeroDivisionError else Ok (a mod b).

(** [w[a:b]] on a one-dimensional tensor, for [0 <= a <= b]: the bounds are
    clamped to the length, so a slice past the end is empty. *)
Definition slice {X : Type} (a b : nat) (w : list X) : list X :=
  firstn (b - a) (skipn a w).

(** [str(n)] for a non-negative integer. *)
Definition str_nat (n : nat) : string := NilEmpty.string_of_uint (Nat.to_uint n).

(** ['{} vs {}'.format(w.shape, part)] for a one-dimensional [w]. *)
Definition format_vs (n part : nat) : string :=
  ("torch.Size([" ++ str_nat n ++ "]) vs " ++ str_nat part)%string.

(** ** Scalars *)

Class Scalar (A : Type) : Type := {
  zero : A;
  add : A -> A -> A;
  mul : A -> A -> A }.

#[export] Instance Z_scalar : Scalar Z :=
  {| zero := 0%Z; add := Z.add; mul := Z.mul |}.

#[export] Instance R_scalar : Scalar R :=
  {| zero := 0%R; add := Rplus; mul := Rmult |}.

(** ** The arithmetic of the parameters

    The parameters are tensors of the default dtype, single precision.
    [reset_parameters] computes [std = math.sqrt(6 / (n + 1))] in double
    precision and hands it to [uniform_], which converts the bounds to the
    dtype of the tensor and samples there.  [std_of n] is that converted
    bound; [fneg], [fsub] and the [add] and [mul] of the scalars are the
    operations of the dtype, [fle] its order, [fone] its [1.0]. *)
Class ParamArith (F : Type) : Type := {
  pa_scalar : Scalar F;
  fneg : F -> F;
  fsub : F -> F -> F;
  fone : F;
  fle : F -> F -> Prop;
  std_of : nat -> F }.
#[export] Existing Instance pa_scalar.

(** Conversions between integers, double and single precision. *)
Definition b64_of_Z (z : Z) : spec_float := binary_normalize 53 1024 z 0 false.

Definition to32 (x : spec_float) : spec_float :=
  match x with
  | S754_finite s m e => binary_round 24 128 s m e
  | _ => x
  end.


(** [math.sqrt(6 / (n + 1))]: a division and a square root of double
    precision, each correctly rounded. *)
Definition std64 (n : nat) : spec_float :=
  SFsqrt 53 1024 (SFdiv 53 1024 (b64_of_Z 6) (b64_of_Z (Z.of_nat n + 1))).

#[export] Instance binary32_scalar : Scalar spec_float :=
  {| zero := S754_zero false; add := SFadd 24 128; mul := SFmul 24 128 |}.

(** Single precision, as the tensors have it. *)
#[export] Instance binary32_arith : ParamArith spec_float :=
  {| pa_scalar := binary32_scalar;
     fneg := SFopp;
     fsub := SFsub 24 128;
     fone := binary_normalize 24 128 1 0 false;
     fle := fun x y => SFleb x y = true;
     std_of := fun n => to32 (std64 n) |}.

(** The exact reals, for comparison. *)
#[export] Instance R_arith : ParamArith R :=
  {| pa_scalar := R_scalar;
     fneg := Ropp;
     fsub := Rminus;
     fone := 1%R;
     fle := Rle;
     std_of := fun n => sqrt (6 / (INR n + 1)) |}.

(** The width [std - (-std)] of the interval that [uniform_] samples. *)
Definition width {F : Type} `{ParamArith F} (n : nat) : F :=
  fsub (std_of n) (fneg (std_of n)).


(** ** Tensors

    A tensor carries its shape: the nested lists alone do not determine it
    when an outer dimension is empty.  One-dimensional tensors are lists. *)

Record Tensor2 (A : Type) : Type := mkT2 {
  shape2 : nat * nat;
  data2 : list (list A) }.
Arguments mkT2 {A} shape2 data2.
Arguments shape2 {A} t.
Arguments data2 {A} t.

Record Tensor3 (A : Type) : Type := mkT3 {
  shape3 : nat * nat * nat;
  data3 : list (list (list A)) }.
Arguments mkT3 {A} shape3 data3.
Arguments shape3 {A} t.
Arguments data3 {A} t.

(** [t.shape[-1]] *)
Definition last_dim {A : Type} (t : Tensor3 A) : nat := snd (shape3 t).

(** The entries agree with the declared shape. *)
Definition rows_of {X : Type} (n : nat) (P : X -> Prop) (l : list X) : Prop :=
  length l = n /\ Forall P l.

Definition wf3 {A : Type} (t : Tensor3 A) : Prop :=
  let '(B, L, d) := shape3 t in
  rows_of B (rows_of L (fun r => length r = d)) (data3 t).

Definition has_shape {A : Type} (t : Tensor3 A) (B L d : nat) : Prop :=
  shape3 t = (B, L, d) /\ wf3 t.

Section Torch.
Context {A : Type} `{Scalar A}.

(** [t[b, i, k]] *)
Definition get3 (t : Tensor3 A) (b i k : nat) : A :=
  nth k (nth i (nth b (data3 t) []) []) zero.

(** Inner product of two vectors, accumulated from index [0]. *)
Definition dot (xs ys : list A) : A :=
  fold_left (fun acc p => add acc (mul (fst p) (snd p))) (combine xs ys) zero.

(** [sum_{k < n} f k], accumulated from index [0]. *)
Fixpoint sum_upto (n : nat) (f : nat -> A) : A :=
  match n with
  | O => zero
  | S n' => add (sum_upto n' f) (f n')
  end.

(** Broadcasting of one dimension: equal sizes, or one of them [1]. *)
Definition bdim (a b : nat) : option nat :=
  if a =? b then Some a
  else if a =? 1 then Some b
  else if b =? 1 then Some a
  else None.

(** A dimension of size [1] is repeated to the broadcast size. *)
Definition expand_to {X : Type} (n : nat) (xs : list X) : list X :=
  match xs with
  | [x] => repeat x n
  | _ => xs
  end.

Fixpoint zipwith {X Y Z : Type} (f : X -> Y -> Z) (xs : list X) (ys : list Y) : list Z :=
  match xs, ys with
  | x :: xs', y :: ys' => f x y :: zipwith f xs' ys'
  | _, _ => []
  end.

Definition bzip {X Y Z : Type} (n : nat) (f : X -> Y -> Z)
    (xs : list X) (ys : list Y) : list Z :=
  zipwith f (expand_to n xs) (expand_to n ys).

(** Column [j] of a matrix given by its rows. *)
Definition column (j : nat) (m : list (list A)) : list A :=
  map (fun r => nth j r zero) m.

(** [torch.matmul(t, v)] for a 3-D [t] and a 1-D [v]: a batched
    matrix-vector product. *)
Definition matmul_3_1 (t : Tensor3 A) (v : list A) : result (Tensor2 A) :=
  let '(B, L, d) := shape3 t in
  if d =? length v
  then Ok (mkT2 (B, L) (map (map (fun row => dot row v)) (data3 t)))
  else Raise RuntimeError.

(** Product of an [n x m] matrix with an [m x p] matrix. *)
Definition mm (p : nat) (x y : list (list A)) : list (list A) :=
  map (fun row => map (fun j => dot row (column j y)) (seq 0 p)) x.

(** [torch.matmul(a, b)] for 3-D [a] and [b]: a batched matrix product,
    the batch dimension being broadcast. *)
Definition matmul_3_3 (a b : Tensor3 A) : result (Tensor3 A) :=
  let '(a0, n, m) := shape3 a in
  let '(b0, m', p) := shape3 b in
  if m =? m'
  then match bdim a0 b0 with
       | Some B => Ok (mkT3 (B, n, p) (bzip B (mm p) (data3 a) (data3 b)))
       | None => Raise RuntimeError
       end
  else Raise RuntimeError.

(** [t.unsqueeze(dim=2)] and [t.unsqueeze(dim=1)] for a 2-D [t]. *)
Definition unsqueeze_2 (t : Tensor2 A) : Tensor3 A :=
  let '(B, L) := shape2 t in
  mkT3 (B, L, 1) (map (map (fun x => [x])) (data2 t)).

Definition unsqueeze_1 (t : Tensor2 A) : Tensor3 A :=
  let '(B, L) := shape2 t in
  mkT3 (B, 1, L) (map (fun row => [row]) (data2 t)).

(** [t * v] for a 3-D [t] and a 1-D [v], broadcast along the last
    dimension. *)
Definition mul_3_1 (t : Tensor3 A) (v : list A) : result (Tensor3 A) :=
  let '(B, L, d) := shape3 t in
  match bdim d (length v) with
  | Some n => Ok (mkT3 (B, L, n) (map (map (fun row => bzip n mul row v)) (data3 t)))
  | None => Raise RuntimeError
  end.

(** [t.permute(0,2,1).contiguous()] *)
Definition permute_021 (t : Tensor3 A) : Tensor3 A :=
  let '(B, L, d) := shape3 t in
  mkT3 (B, d, L) (map (fun m => map (fun k => column k m) (seq 0 d)) (data3 t)).

(** [a + b] for 3-D [a] and [b], every dimension being broadcast. *)
Definition add_3_3 (a b : Tensor3 A) : result (Tensor3 A) :=
  let '(a0, a1, a2) := shape3 a in
  let '(b0, b1, b2) := shape3 b in
  match bdim a0 b0, bdim a1 b1, bdim a2 b2 with
  | Some n0, Some n1, Some n2 =>
      Ok (mkT3 (n0, n1, n2) (bzip n0 (bzip n1 (bzip n2 add)) (data3 a) (data3 b)))
  | _, _, _ => Raise RuntimeError
  end.
End Torch.

(** ** The scorer *)

Record MyLinearSimilarity (A : Type) : Type := mkScorer {
  _combination : string;
  _part : nat;
  _weight_vector : list A;
  _bias : list A;
  _activation : A -> A }.
Arguments mkScorer {A} _ _ _ _ _.
Arguments _combination {A} m.
Arguments _part {A} m.
Arguments _weight_vector {A} m.
Arguments _bias {A} m.
Arguments _activation {A} m.

Section Forward.
Context {A : Type} `{Scalar A}.

(** [forward(self, tensor_1, tensor_2)], with [tensor_1] of shape
    [[batch, len_1, d]] and [tensor_2] of shape [[batch, len_2, d]]. *)
Definition forward (self : MyLinearSimilarity A) (tensor_1 tensor_2 : Tensor3 A)
    : result (Tensor3 A) :=
  let w := _weight_vector self in
  py_assert (last_dim tensor_1 * _part self =? length w) None;;
  d ← floordiv (length w) (_part self);
  r ← py_mod (length w) (_part self);
  py_assert (r =? 0) (Some (format_vs (length w) (_part self)));;
  sim_1 ← matmul_3_1 tensor_1 (slice 0 d w);
  sim_2 ← matmul_3_1 tensor_2 (slice d (2 * d) w);
  let sim_1 := unsqueeze_2 sim_1 in
  let sim_2 := unsqueeze_1 sim_2 in
  sim_1_temp ← mul_3_1 tensor_1 (slice (2 * d) (3 * d) w);
  let sim_2_temp := permute_021 tensor_2 in
  sim_1_2 ← matmul_3_3 sim_1_temp sim_2_temp;
  s12 ← add_3_3 sim_1 sim_2;
  add_3_3 s12 sim_1_2.
End Forward.

(** ** Construction: allocation, the random generator, initialisation *)

(** What construction reads and changes outside the object: the unit samples
    the random generator will deliver and how many were drawn, the contents
    of memory that was never written, and the sizes of the tensors allocated
    so far, oldest first. *)
Record World (F : Type) : Type := mkWorld {
  samples : nat -> F;
  drawn : nat;
  uninitialised : nat -> F;
  allocated : list nat }.
Arguments mkWorld {F} samples drawn uninitialised allocated.
Arguments samples {F} w.
Arguments drawn {F} w.
Arguments uninitialised {F} w.
Arguments allocated {F} w.

Definition M (F X : Type) : Type := World F -> result X * World F.

#[export] Instance M_ret {F : Type} : MRet (M F) := fun X x w => (Ok x, w).
#[export] Instance M_bind {F : Type} : MBind (M F) := fun X Y k m w =>
  match m w with
  | (Ok x, w') => k x w'
  | (Raise e, w') => (Raise e, w')
  end.

Definition lift {F X : Type} (r : result X) : M F X := fun w => (r, w).

(** [torch.Tensor(n)]: a one-dimensional tensor of [n] unwritten entries. *)
Definition torch_Tensor {F : Type} (n : Z) : M F (list F) := fun w =>
  if (n <? 0)%Z then (Raise RuntimeError, w)
  else (Ok (map (uninitialised w) (seq 0 (Z.to_nat n))),
        mkWorld (samples w) (drawn w) (uninitialised w) (allocated w ++ [Z.to_nat n])).

(** [t.uniform_(lo, hi)]: every entry is overwritten by [u * (hi - lo) + lo],
    computed in the arithmetic of the tensor, for the next unit sample [u] of
    the generator. *)
Definition uniform_ {F : Type} `{ParamArith F} (t : list F) (lo hi : F)
    : M F (list F) := fun w =>
  (Ok (map (fun k => add (mul (samples w (drawn w + k)) (fsub hi lo)) lo)
           (seq 0 (length t))),
   mkWorld (samples w) (drawn w + length t) (uninitialised w) (allocated w)).

(** [t.fill_(v)] *)
Definition fill_ {F : Type} (t : list F) (v : F) : list F := map (fun _ => v) t.

(** [str.split(sep)] for a one-character separator. *)
Fixpoint split (sep : ascii) (s : string) : list string :=
  match s with
  | EmptyString => [EmptyString]
  | String c s' =>
      if Ascii.eqb c sep then EmptyString :: split sep s'
      else match split sep s' with
           | h :: t => String c h :: t
           | [] => [String c EmptyString]
           end
  end.

Definition comma : ascii := ","%char.

(** The six combinations the class documents: [x], [y], [x*y], [x+y], [x-y]
    and [x/y]. *)
Inductive token : Type := TokX | TokY | TokMul | TokAdd | TokSub | TokDiv.

Definition parse_token (s : string) : option token :=
  if String.eqb s "x" then Some TokX
  else if String.eqb s "y" then Some TokY
  else if String.eqb s "x*y" then Some TokMul
  else if String.eqb s "x+y" then Some TokAdd
  else if String.eqb s "x-y" then Some TokSub
  else if String.eqb s "x/y" then Some TokDiv
  else None.

Definition recognized (s : string) : Prop := is_Some (parse_token s).

(** Modelled from the spec: the dimension one token contributes in
    [allennlp.nn.util.get_combined_dim], which is not among the sources.
    An identity token contributes the dimension of its tensor; an elementwise
    binary token requires both dimensions equal and contributes the common
    one; an unrecognized token is a configuration error. *)
Definition combination_dim (piece : string) (dim1 dim2 : Z) : result Z :=
  match parse_token piece with
  | Some TokX => Ok dim1
  | Some TokY => Ok dim2
  | Some _ => if (dim1 =? dim2)%Z then Ok dim1 else Raise ConfigurationError
  | None => Raise ConfigurationError
  end.

(** Modelled from the spec: the sum that [get_combined_dim] takes over the
    tokens, left to right; the first token that fails decides the error. *)
Fixpoint sum_dims (pieces : list string) (dim1 dim2 : Z) : result Z :=
  match pieces with
  | [] => Ok 0%Z
  | piece :: rest =>
      n ← combination_dim piece dim1 dim2;
      m ← sum_dims rest dim1 dim2;
      Ok (n + m)%Z
  end.

(** Modelled from the spec: [allennlp.nn.util.get_combined_dim], called as
    [get_combined_dim(combination, [dim1, dim2])]; it is not among the
    sources.  The sum, over the comma-separated tokens in order, of the
    dimension each contributes. *)
Definition get_combined_dim (combination : string) (dim1 dim2 : Z) : result Z :=
  sum_dims (split comma combination) dim1 dim2.

(** [reset_parameters(self)]: the object is updated in place, here returned. *)
Definition reset_parameters {F : Type} `{ParamArith F} (self : MyLinearSimilarity F)
    : M F (MyLinearSimilarity F) :=
  let std := std_of (length (_weight_vector self)) in
  weight ← uniform_ (_weight_vector self) (fneg std) std;
  let bias := fill_ (_bias self) zero in
  mret (mkScorer (_combination self) (_part self) weight bias (_activation self)).

(** [__init__(self, tensor_1_dim, tensor_2_dim, combination, activation)];
    the defaults of the source are [combination = "x,y"] and the activation
    registered as ["linear"]. *)
Definition __init__ {F : Type} `{ParamArith F} (tensor_1_dim tensor_2_dim : Z)
    (combination : string) (activation : F -> F) : M F (MyLinearSimilarity F) :=
  let part := length (split comma combination) in
  combined_dim ← lift (get_combined_dim combination tensor_1_dim tensor_2_dim);
  weight_vector ← torch_Tensor combined_dim;
  bias ← torch_Tensor 1;
  reset_parameters (mkScorer combination part weight_vector bias activation).

(** ** Construction from a configuration object *)

(** A configuration value: an integer or a string. *)
Inductive pvalue : Type :=
| PInt (z : Z)
| PStr (s : string).

(** Modelled from the spec: [allennlp.common.Params], which is not among the
    sources: a mapping from keys to values with [pop_int(key)],
    [pop(key, default)] and [assert_empty(name)].  A required key that is
    absent and a key left over are configuration errors; a popped key is
    removed.  [pop_required] is [pop(key)] without a default. *)
Definition pop_required (key : string) (params : gmap string pvalue)
    : result (pvalue * gmap string pvalue) :=
  match params !! key with
  | Some v => Ok (v, delete key params)
  | None => Raise ConfigurationError
  end.

(** Python's [int(s)] for a string, in base ten: blanks around the numeral
    are dropped, a sign [+] or [-] may lead, and single underscores may
    separate digits.  Digits outside ASCII are not covered. *)
Definition is_blank (c : ascii) : bool :=
  let n := nat_of_ascii c in
  (n =? 32) || ((9 <=? n) && (n <=? 13)) || ((28 <=? n) && (n <=? 31)).

Fixpoint lstrip (s : string) : string :=
  match s with
  | String c s' => if is_blank c then lstrip s' else s
  | EmptyString => EmptyString
  end.

Fixpoint rstrip (s : string) : string :=
  match s with
  | String c s' =>
      match rstrip s' with
      | EmptyString => if is_blank c then EmptyString else String c EmptyString
      | r => String c r
      end
  | EmptyString => EmptyString
  end.

Definition digit_of (c : ascii) : option Z :=
  let n := nat_of_ascii c in
  if (48 <=? n) && (n <=? 57) then Some (Z.of_nat (n - 48)) else None.

(** The digits of a numeral, [after_digit] telling whether the character
    before was a digit: an underscore needs a digit on both sides. *)
Fixpoint read_digits (acc : Z) (after_digit : bool) (s : string) : option Z :=
  match s with
  | EmptyString => if after_digit then Some acc else None
  | String c s' =>
      match digit_of c with
      | Some d => read_digits (10 * acc + d) true s'
      | None =>
          if Ascii.eqb c "_" && after_digit then read_digits acc false s' else None
      end
  end.

Definition python_int (s : string) : option Z :=
  match rstrip (lstrip s) with
  | String "+" r => read_digits 0 false r
  | String "-" r => option_map Z.opp (read_digits 0 false r)
  | t => read_digits 0 false t
  end.

(** Modelled from the spec: the conversion [int(value)] that [pop_int]
    applies: an integer is kept, a string goes through [int], which raises
    [ValueError] on what is not a numeral. *)
Definition as_int (v : pvalue) : result Z :=
  match v with
  | PInt z => Ok z
  | PStr s => match python_int s with
              | Some z => Ok z
              | None => Raise ValueError
              end
  end.

(** Modelled from the spec: [Params.pop_int(key)], a required integer. *)
Definition pop_int (key : string) (params : gmap string pvalue)
    : result (Z * gmap string pvalue) :=
  '(v, rest) ← pop_required key params;
  z ← as_int v;
  Ok (z, rest).

(** Modelled from the spec: [Params.pop(key, default)], an optional value. *)
Definition pop (key : string) (default : pvalue) (params : gmap string pvalue)
    : pvalue * gmap string pvalue :=
  match params !! key with
  | Some v => (v, delete key params)
  | None => (default, params)
  end.

(** Modelled from the spec: [Params.assert_empty(name)], which fails when a
    key was not consumed. *)
Definition assert_empty (params : gmap string pvalue) : result unit :=
  if decide (params = ∅) then Ok tt else Raise ConfigurationError.

(** Modelled from the spec: [Activation.by_name(name)()], which is not among
    the sources: the activation registered under [name] in the registry the
    host framework owns; a name that is not registered is a configuration
    error. *)
Definition by_name {F : Type} (registry : gmap string (F -> F)) (name : pvalue)
    : result (F -> F) :=
  match name with
  | PStr n => match registry !! n with
              | Some f => Ok f
              | None => Raise ConfigurationError
              end
  | PInt _ => Raise ConfigurationError
  end.

(** The constructor calls [combination.split], which only a string has. *)
Definition as_combination (v : pvalue) : result string :=
  match v with
  | PStr s => Ok s
  | PInt _ => Raise AttributeError
  end.

(** [from_params(cls, params)]; [registry] is the activation registry of the
    host framework. *)
Definition from_params {F : Type} `{ParamArith F} (registry : gmap string (F -> F))
    (params : gmap string pvalue) : M F (MyLinearSimilarity F) :=
  '(tensor_1_dim, params) ← lift (pop_int "tensor_1_dim" params);
  '(tensor_2_dim, params) ← lift (pop_int "tensor_2_dim" params);
  let '(combination, params) := pop "combination" (PStr "x,y") params in
  let '(name, params) := pop "activation" (PStr "linear") params in
  activation ← lift (by_name registry name);
  lift (assert_empty params);;
  combination ← lift (as_combination combination);
  __init__ tensor_1_dim tensor_2_dim combination activation.

(** ** The specification's score *)

Section Similarity.
Context {A : Type} `{Scalar A}.

(** The score the specification gives for the pair of positions [(i, j)] of
    batch [b]: the weight vector [w] is cut into [w_a = w[0:d]],
    [w_b = w[d:2d]] and [w_c = w[2d:3d]]. *)
Definition similarity (w : list A) (d : nat) (t1 t2 : Tensor3 A) (b i j : nat) : A :=
  add (add (sum_upto d (fun k => mul (get3 t1 b i k) (nth k w zero)))
           (sum_upto d (fun k => mul (get3 t2 b j k) (nth (d + k) w zero))))
      (sum_upto d (fun k =>
         mul (mul (get3 t1 b i k) (nth (2 * d + k) w zero)) (get3 t2 b j k))).

End Similarity.

(** ** Auxiliary notions *)

(** [tab n f] is the list [f 0; ...; f (n-1)]. *)
Definition tab {X : Type} (n : nat) (f : nat -> X) : list X := map f (seq 0 n).

(** The operations of the tensor library raise nothing but [RuntimeError]. *)
Definition only_runtime {X : Type} (m : result X) : Prop :=
  forall e, m = Raise e -> e = RuntimeError.

(** The keys [from_params] extracts. *)
Definition known_keys : list string :=
  ["tensor_1_dim"; "tensor_2_dim"; "combination"; "activation"]%string.

(** What is left of the configuration once the four keys are popped. *)
Definition leftover (params : gmap string pvalue) : gmap string pvalue :=
  delete "activation" (delete "combination"
    (delete "tensor_2_dim" (delete "tensor_1_dim" params))).

(** ** Concrete inputs *)

(** The scorer and the inputs of the specification's example. *)
Definition ex_scorer : MyLinearSimilarity Z :=
  mkScorer "x,y,x*y" 3 [1; 0; 0; 1; 1; 1]%Z [0%Z] (fun x => x).
Definition ex_t1 : Tensor3 Z := mkT3 (1, 1, 2) [[[1; 2]]]%Z.
Definition ex_t2 : Tensor3 Z := mkT3 (1, 1, 2) [[[3; 4]]]%Z.

(** Scorers with the default combination ["x,y"]: dimensions [(2, 1)] give a
    weight vector of length [3], dimensions [(1, 1)] one of length [2]. *)
Definition xy_scorer_21 : MyLinearSimilarity Z :=
  mkScorer "x,y" 2 [1; 1; 1]%Z [0%Z] (fun x => x).
Definition xy_scorer_11 : MyLinearSimilarity Z :=
  mkScorer "x,y" 2 [1; 1]%Z [0%Z] (fun x => x).
Definition ex_unit : Tensor3 Z := mkT3 (1, 1, 1) [[[1]]]%Z.

(** Inputs whose last dimension is not the one the weights were built for. *)
Definition ex_t1_wide : Tensor3 Z := mkT3 (1, 1, 3) [[[1; 2; 3]]]%Z.
Definition ex_t2_wide : Tensor3 Z := mkT3 (1, 1, 5) [[[1; 2; 3; 4; 5]]]%Z.


(** A generator that always delivers [1/2], over memory of zeros. *)
Definition ex_world : World R :=
  mkWorld (fun _ => (1 / 2)%R) 0 (fun _ => 0%R) [].

Definition ex_real_scorer : MyLinearSimilarity R :=
  mkScorer "x,y,x*y" 3 [1; 0; 0; 1; 1; 1]%R [5%R] (fun x => x).


(** The samples [0.0], [0.5] and [1 - 2^-24], the largest below [1.0]. *)
Definition ex_samples32 : list spec_float :=
  [S754_zero false; S754_finite false 8388608 (-24); S754_finite false 16777215 (-24)].

(** A registry that knows the identity under the name ["linear"]. *)
Definition ex_registry : gmap string (R -> R) :=
  {[ "linear"%string := fun x : R => x ]}.

Definition ex_params : gmap string pvalue :=
  <[ "tensor_1_dim"%string := PInt 2 ]> (<[ "tensor_2_dim"%string := PInt 2 ]> ∅).

(** A configuration that gives all four keys, one dimension as a string. *)
Definition ex_params_full : gmap string pvalue :=
  <[ "tensor_1_dim"%string := PInt 2 ]>
    (<[ "tensor_2_dim"%string := PStr " +2 " ]>
       (<[ "combination"%string := PStr "x,y,x*y" ]>
          (<[ "activation"%string := PStr "linear" ]> ∅))).

(** ** Notions used by the further properties *)

(** The number of occurrences of a character in a string. *)
Fixpoint count_char (c : ascii) (s : string) : nat :=
  match s with
  | EmptyString => 0
  | String c' s' => (if Ascii.eqb c' c then 1 else 0) + count_char c s'
  end.

(** What a caller observes of an outcome without looking at the entries: the
    shape of the array returned, or the exception raised. *)
Definition outcome_shape {A : Type} (r : result (Tensor3 A)) : result (nat * nat * nat) :=
  match r with
  | Ok t => Ok (shape3 t)
  | Raise e => Raise e
  end.

(** A scorer with four tokens for inputs of dimension [2], and one whose
    weights differ from it in the fourth slice only. *)
Definition ex_scorer_4 : MyLinearSimilarity Z :=
  mkScorer "x,y,x*y,x+y" 4 [1; 0; 0; 1; 1; 1; 7; 7]%Z [0%Z] (fun x => x).
Definition ex_scorer_4' : MyLinearSimilarity Z :=
  mkScorer "x,y,x*y,x+y" 4 [1; 0; 0; 1; 1; 1; 8; 9]%Z [0%Z] (fun x => x).

(** The scorer of the example with the third slice of its weights zeroed. *)
Definition ex_scorer_no_cross : MyLinearSimilarity Z :=
  mkScorer "x,y,x*y" 3 [1; 0; 0; 1; 0; 0]%Z [0%Z] (fun x => x).

(** A second input with two batches, and inputs of three batches. *)
Definition ex_t2_two : Tensor3 Z := mkT3 (2, 1, 2) [[[3; 4]]; [[5; 6]]]%Z.
Definition ex_t2_three : Tensor3 Z := mkT3 (3, 1, 2) [[[3; 4]]; [[5; 6]]; [[7; 8]]]%Z.

(** A world whose generator has already delivered three samples. *)
Definition ex_world_later : World R :=
  mkWorld (fun _ => (1 / 2)%R) 3 (fun _ => 1%R) [6; 1].

Definition ex_real_scorer' : MyLinearSimilarity R :=
  mkScorer "x,y,x*y" 3 [2; 2; 2; 2; 2; 2]%R [7%R] (fun x => x).

(** [t.expand(B, -1, -1)] for a 3-D [t] of batch size [1]: the single batch
    repeated [B] times. *)
Definition expand_batch {A : Type} (B : nat) (t : Tensor3 A) : Tensor3 A :=
  let '(_, L, d) := shape3 t in
  mkT3 (B, L, d) (expand_to B (data3 t)).

(** Real inputs of shape [[1, 1, 2]] and of shape [[1, 1, 1]]. *)
Definition ex_rt1 : Tensor3 R := mkT3 (1, 1, 2) [[[1; 2]]]%R.
Definition ex_rt2 : Tensor3 R := mkT3 (1, 1, 2) [[[3; 4]]]%R.
Definition ex_runit : Tensor3 R := mkT3 (1, 1, 1) [[[1]]]%R.

(** * Properties *)

(** ** Lists as tables *)

Section Tables.
Context {X : Type}.

Lemma tab_length (n : nat) (f : nat -> X) : length (tab n f) = n.
Proof. unfold tab. now rewrite length_map, length_seq. Qed.

Lemma tab_nth (n i : nat) (f : nat -> X) (d : X) :
  i < n -> nth i (tab n f) d = f i.
Proof.
  intros Hi. unfold tab.
  rewrite (nth_indep _ d (f 0)) by now rewrite length_map, length_seq.
  rewrite (map_nth f (seq 0 n) 0 i). now rewrite seq_nth.
Qed.

Lemma tab_ext (n : nat) (f g : nat -> X) :
  (forall i, i < n -> f i = g i) -> tab n f = tab n g.
Proof.
  intros E. unfold tab. apply map_ext_in. intros i Hi.
  apply in_seq in Hi. apply E. lia.
Qed.

Lemma tab_of_list (l : list X) (d : X) :
  l = tab (length l) (fun i => nth i l d).
Proof.
  apply (nth_ext _ _ d d).
  - now rewrite tab_length.
  - intros i Hi. now rewrite tab_nth.
Qed.

Lemma tab_map {Y : Type} (n : nat) (f : nat -> X) (g : X -> Y) :
  map g (tab n f) = tab n (fun i => g (f i)).
Proof. unfold tab. now rewrite map_map. Qed.

Lemma tab_S (n : nat) (f : nat -> X) :
  tab (S n) f = f 0 :: tab n (fun i => f (S i)).
Proof. unfold tab. simpl. f_equal. now rewrite <- seq_shift, map_map. Qed.

Lemma tab_repeat (n : nat) (x : X) : repeat x n = tab n (fun _ => x).
Proof.
  induction n as [|n IH]; [reflexivity|].
  rewrite tab_S. simpl. now f_equal.
Qed.

Lemma expand_to_tab (n : nat) (f : nat -> X) : expand_to n (tab n f) = tab n f.
Proof. destruct n as [|[|n]]; reflexivity. Qed.

Lemma expand_to_one (n : nat) (x : X) : expand_to n [x] = tab n (fun _ => x).
Proof. simpl. apply tab_repeat. Qed.

End Tables.

Section Broadcast.
Context {X Y Z : Type}.

Lemma zipwith_tab (n : nat) (h : X -> Y -> Z) (f : nat -> X) (g : nat -> Y) :
  zipwith h (tab n f) (tab n g) = tab n (fun i => h (f i) (g i)).
Proof.
  revert f g. induction n as [|n IH]; intros f g; [reflexivity|].
  rewrite !tab_S. simpl. f_equal. apply IH.
Qed.

Lemma bzip_tab (n : nat) (h : X -> Y -> Z) (f : nat -> X) (g : nat -> Y) :
  bzip n h (tab n f) (tab n g) = tab n (fun i => h (f i) (g i)).
Proof. unfold bzip. rewrite !expand_to_tab. apply zipwith_tab. Qed.

Lemma bzip_one_l (n : nat) (h : X -> Y -> Z) (x : X) (g : nat -> Y) :
  bzip n h [x] (tab n g) = tab n (fun i => h x (g i)).
Proof. unfold bzip. rewrite expand_to_one, expand_to_tab. apply zipwith_tab. Qed.

Lemma bzip_one_r (n : nat) (h : X -> Y -> Z) (f : nat -> X) (y : Y) :
  bzip n h (tab n f) [y] = tab n (fun i => h (f i) y).
Proof. unfold bzip. rewrite expand_to_one, expand_to_tab. apply zipwith_tab. Qed.
End Broadcast.

(** ** Inner products as indexed sums *)

Lemma combine_snoc {X Y : Type} (xs : list X) (ys : list Y) (x : X) (y : Y) :
  length xs = length ys ->
  combine (xs ++ [x]) (ys ++ [y]) = combine xs ys ++ [(x, y)].
Proof.
  revert ys. induction xs as [|a xs IH]; intros [|b ys] E; try discriminate.
  - reflexivity.
  - simpl. f_equal. apply IH. now injection E.
Qed.

Section Sums.
Context {A : Type} `{Scalar A}.

Lemma sum_upto_ext (n : nat) (f g : nat -> A) :
  (forall k, k < n -> f k = g k) -> sum_upto n f = sum_upto n g.
Proof.
  induction n as [|n IH]; intros E; [reflexivity|].
  simpl. rewrite IH, E; auto.
Qed.

Lemma dot_snoc (xs ys : list A) (x y : A) :
  length xs = length ys ->
  dot (xs ++ [x]) (ys ++ [y]) = add (dot xs ys) (mul x y).
Proof.
  intros E. unfold dot.
  rewrite combine_snoc by exact E.
  now rewrite fold_left_app.
Qed.

Lemma dot_sum_upto (n : nat) (xs ys : list A) :
  length xs = n -> length ys = n ->
  dot xs ys = sum_upto n (fun k => mul (nth k xs zero) (nth k ys zero)).
Proof.
  revert xs ys. induction n as [|n IH]; intros xs ys Hx Hy.
  - destruct xs; [reflexivity | discriminate].
  - destruct (exists_last (l := xs)) as (xs' & x & ->); [now intros ->|].
    destruct (exists_last (l := ys)) as (ys' & y & ->); [now intros ->|].
    rewrite length_app in Hx, Hy. simpl in Hx, Hy.
    assert (Hx' : length xs' = n) by lia.
    assert (Hy' : length ys' = n) by lia.
    rewrite dot_snoc by congruence. simpl.
    rewrite (IH xs' ys') by assumption. f_equal.
    + apply sum_upto_ext. intros k Hk.
      now rewrite !app_nth1 by lia.
    + rewrite !app_nth2 by lia. rewrite Hx', Hy', Nat.sub_diag. reflexivity.
Qed.
End Sums.

(** ** What [forward] computes *)

Section ForwardFacts.
Context {A : Type} `{Scalar A}.

Lemma rows_of_nth {X : Type} (n : nat) (P : X -> Prop) (l : list X) (i : nat) (d : X) :
  rows_of n P l -> i < n -> P (nth i l d).
Proof.
  intros [Hl HP] Hi. rewrite List.Forall_forall in HP. apply HP, nth_In. lia.
Qed.

Lemma wf3_tab (t : Tensor3 A) (B L d : nat) :
  has_shape t B L d ->
  data3 t = tab B (fun b => tab L (fun i => tab d (fun k => get3 t b i k))).
Proof.
  intros [Hs Hw]. unfold wf3 in Hw. rewrite Hs in Hw.
  rewrite (tab_of_list (data3 t) []).
  destruct Hw as [Hl HP]. rewrite Hl.
  apply tab_ext. intros b Hb.
  assert (Hb' : rows_of L (fun r => length r = d) (nth b (data3 t) [])).
  { rewrite List.Forall_forall in HP. apply HP, nth_In. lia. }
  rewrite (tab_of_list (nth b (data3 t) []) []).
  destruct Hb' as [Hl' HP']. rewrite Hl'.
  apply tab_ext. intros i Hi.
  assert (Hr : length (nth i (nth b (data3 t) []) []) = d).
  { rewrite List.Forall_forall in HP'. apply HP', nth_In. lia. }
  rewrite (tab_of_list (nth i (nth b (data3 t) []) []) zero).
  rewrite Hr. reflexivity.
Qed.

Lemma tab_wf3 (B L d : nat) (f : nat -> nat -> nat -> A) :
  has_shape (mkT3 (B, L, d) (tab B (fun b => tab L (fun i => tab d (f b i))))) B L d.
Proof.
  split; [reflexivity|]. unfold wf3. simpl.
  split; [apply tab_length|]. apply List.Forall_forall. intros m Hm.
  unfold tab in Hm. apply in_map_iff in Hm. destruct Hm as (b & <- & _).
  split; [apply tab_length|]. apply List.Forall_forall. intros r Hr.
  unfold tab in Hr. apply in_map_iff in Hr. destruct Hr as (i & <- & _).
  apply tab_length.
Qed.

Lemma get3_tab (B L d : nat) (f : nat -> nat -> nat -> A) (b i k : nat) :
  b < B -> i < L -> k < d ->
  get3 (mkT3 (B, L, d) (tab B (fun b => tab L (fun i => tab d (f b i))))) b i k = f b i k.
Proof.
  intros Hb Hi Hk. unfold get3. simpl.
  now rewrite (tab_nth B b), (tab_nth L i), (tab_nth d k).
Qed.

Lemma slice_length {X : Type} (a n : nat) (w : list X) :
  a + n <= length w -> length (slice a (a + n) w) = n.
Proof.
  intros Hl. unfold slice. rewrite length_firstn, length_skipn. lia.
Qed.

Lemma slice_nth {X : Type} (a n k : nat) (w : list X) (d : X) :
  k < n -> nth k (slice a (a + n) w) d = nth (a + k) w d.
Proof.
  intros Hk. unfold slice. rewrite nth_firstn, nth_skipn.
  replace (a + n - a) with n by lia.
  destruct (k <? n) eqn:E; [reflexivity|]. apply Nat.ltb_ge in E. lia.
Qed.

Lemma bdim_same (n : nat) : bdim n n = Some n.
Proof. unfold bdim. now rewrite Nat.eqb_refl. Qed.

Lemma bdim_one_r (n : nat) : bdim n 1 = Some n.
Proof.
  unfold bdim. destruct (n =? 1) eqn:E; [|reflexivity].
  apply Nat.eqb_eq in E. now subst.
Qed.

Lemma bdim_one_l (n : nat) : bdim 1 n = Some n.
Proof.
  unfold bdim. destruct (1 =? n) eqn:E; [|reflexivity].
  apply Nat.eqb_eq in E. now subst.
Qed.

Lemma dot_tab (d : nat) (f : nat -> A) (v : list A) :
  length v = d ->
  dot (tab d f) v = sum_upto d (fun k => mul (f k) (nth k v zero)).
Proof.
  intros Hv. rewrite (dot_sum_upto d) by (trivial; apply tab_length).
  apply sum_upto_ext. intros k Hk. now rewrite tab_nth.
Qed.

Lemma column_tab (n d : nat) (f : nat -> nat -> A) (k : nat) :
  k < d -> column k (tab n (fun j => tab d (f j))) = tab n (fun j => f j k).
Proof.
  intros Hk. unfold column. rewrite tab_map. apply tab_ext. intros j Hj.
  now rewrite tab_nth.
Qed.

Lemma forward_value (s : MyLinearSimilarity A) (t1 t2 : Tensor3 A) (B L1 L2 d : nat) :
  has_shape t1 B L1 d -> has_shape t2 B L2 d ->
  length (_weight_vector s) = d * _part s -> _part s <> 0 ->
  3 * d <= length (_weight_vector s) ->
  forward s t1 t2 =
  Ok (mkT3 (B, L1, L2)
        (tab B (fun b => tab L1 (fun i => tab L2 (fun j =>
           similarity (_weight_vector s) d t1 t2 b i j))))).
Proof.
  intros H1 H2 Hw Hp Hlen.
  pose proof (wf3_tab _ _ _ _ H1) as D1.
  pose proof (wf3_tab _ _ _ _ H2) as D2.
  destruct H1 as [S1 _], H2 as [S2 _].
  set (w := _weight_vector s) in *.
  unfold forward. fold w. unfold last_dim. rewrite S1. simpl snd.
  rewrite Hw, Nat.eqb_refl. cbn [py_assert mbind result_bind].
  unfold floordiv, py_mod.
  destruct (_part s =? 0) eqn:E0; [apply Nat.eqb_eq in E0; lia|].
  cbn [mbind result_bind].
  rewrite Nat.div_mul by lia. rewrite Nat.Div0.mod_mul.
  cbn [Nat.eqb py_assert mbind result_bind].
  assert (La : length (slice 0 d w) = d)
    by (unfold slice; rewrite length_firstn, length_skipn; lia).
  assert (Lb : length (slice d (2 * d) w) = d)
    by (unfold slice; rewrite length_firstn, length_skipn; lia).
  assert (Lc : length (slice (2 * d) (3 * d) w) = d)
    by (unfold slice; rewrite length_firstn, length_skipn; lia).
  assert (Na : forall k, k < d -> nth k (slice 0 d w) zero = nth k w zero).
  { intros k Hk. now rewrite (slice_nth 0 d k). }
  assert (Nb : forall k, k < d -> nth k (slice d (2 * d) w) zero = nth (d + k) w zero).
  { intros k Hk. replace (2 * d) with (d + d) by lia. now rewrite slice_nth. }
  assert (Nc : forall k, k < d ->
                 nth k (slice (2 * d) (3 * d) w) zero = nth (2 * d + k) w zero).
  { intros k Hk. replace (3 * d) with (2 * d + d) by lia. now rewrite slice_nth. }
  unfold matmul_3_1. rewrite S1, S2, La, Lb, Nat.eqb_refl.
  cbn [mbind result_bind].
  unfold mul_3_1. rewrite S1, Lc, bdim_same. cbn [mbind result_bind].
  unfold permute_021, matmul_3_3. rewrite S2. cbn [shape3 data3].
  rewrite Nat.eqb_refl, bdim_same. cbn [mbind result_bind].
  unfold unsqueeze_2, unsqueeze_1, add_3_3. cbn [shape2 data2 shape3 data3].
  rewrite bdim_same, bdim_one_r, bdim_one_l. cbn [mbind result_bind shape3 data3].
  rewrite !bdim_same. f_equal. f_equal.
  rewrite D1, D2. clear D1 D2.
  rewrite !tab_map, !bzip_tab. apply tab_ext. intros b Hb.
  rewrite !tab_map, bzip_one_r. unfold mm. rewrite tab_map, bzip_tab.
  apply tab_ext. intros i Hi.
  change (map ?f (seq 0 L2)) with (tab L2 f).
  rewrite bzip_one_l, bzip_tab. apply tab_ext. intros j Hj.
  unfold similarity. f_equal; [f_equal|].
  - rewrite dot_tab by exact La. apply sum_upto_ext. intros k Hk. now rewrite Na.
  - rewrite dot_tab by exact Lb. apply sum_upto_ext. intros k Hk. now rewrite Nb.
  - rewrite (tab_of_list (slice (2 * d) (3 * d) w) zero), Lc, bzip_tab.
    change (map ?f (seq 0 d)) with (tab d f).
    rewrite (tab_ext d (fun k => column k _) (fun k => tab L2 (fun i => get3 t2 b i k)))
      by (intros k Hk; now apply column_tab).
    rewrite column_tab by exact Hj.
    rewrite dot_tab by apply tab_length.
    apply sum_upto_ext. intros k Hk. now rewrite tab_nth, Nc.
Qed.

Lemma only_runtime_bind {X Y : Type} (m : result X) (k : X -> result Y) :
  only_runtime m -> (forall x, only_runtime (k x)) -> only_runtime (m ≫= k).
Proof.
  intros Hm Hk e. destruct m as [x|e']; cbn [mbind result_bind].
  - apply Hk.
  - intros [= <-]. now apply Hm.
Qed.

Lemma matmul_3_1_raises (t : Tensor3 A) (v : list A) : only_runtime (matmul_3_1 t v).
Proof.
  intros e. unfold matmul_3_1. destruct (shape3 t) as [[B L] d].
  destruct (d =? length v); congruence.
Qed.

Lemma mul_3_1_raises (t : Tensor3 A) (v : list A) : only_runtime (mul_3_1 t v).
Proof.
  intros e. unfold mul_3_1. destruct (shape3 t) as [[B L] d].
  destruct (bdim d (length v)); congruence.
Qed.

Lemma matmul_3_3_raises (a b : Tensor3 A) : only_runtime (matmul_3_3 a b).
Proof.
  intros e. unfold matmul_3_3.
  destruct (shape3 a) as [[a0 n] m], (shape3 b) as [[b0 m'] p].
  destruct (m =? m'); [destruct (bdim a0 b0)|]; congruence.
Qed.

Lemma add_3_3_raises (a b : Tensor3 A) : only_runtime (add_3_3 a b).
Proof.
  intros e. unfold add_3_3.
  destruct (shape3 a) as [[a0 a1] a2], (shape3 b) as [[b0 b1] b2].
  destruct (bdim a0 b0), (bdim a1 b1), (bdim a2 b2); congruence.
Qed.

(** The first assertion of [forward] has no message. *)
Lemma forward_assert_fails (s : MyLinearSimilarity A) (t1 t2 : Tensor3 A) :
  last_dim t1 * _part s <> length (_weight_vector s) ->
  forward s t1 t2 = Raise (AssertionError None).
Proof.
  intros Hne. unfold forward.
  destruct (last_dim t1 * _part s =? length (_weight_vector s)) eqn:E.
  - apply Nat.eqb_eq in E. contradiction.
  - reflexivity.
Qed.

(** Once the first assertion passes, no assertion fails: the second one is
    implied by the first. *)
Lemma forward_assert_passes (s : MyLinearSimilarity A) (t1 t2 : Tensor3 A) (e : exn) :
  last_dim t1 * _part s = length (_weight_vector s) ->
  forward s t1 t2 = Raise e -> e = ZeroDivisionError \/ e = RuntimeError.
Proof.
  intros Hw. unfold forward. rewrite <- Hw, Nat.eqb_refl.
  cbn [py_assert mbind result_bind]. unfold floordiv, py_mod.
  destruct (_part s =? 0) eqn:E0; cbn [mbind result_bind].
  - intros [= <-]. now left.
  - rewrite Nat.Div0.mod_mul. cbn [Nat.eqb py_assert mbind result_bind].
    intros Hr. right. revert e Hr.
    repeat (apply only_runtime_bind;
            [first [apply matmul_3_1_raises | apply mul_3_1_raises
                   | apply matmul_3_3_raises | apply add_3_3_raises] | intros ?]).
    apply add_3_3_raises.
Qed.

Lemma forward_reads (s s' : MyLinearSimilarity A) (t1 t2 : Tensor3 A) :
  _part s = _part s' -> _weight_vector s = _weight_vector s' ->
  forward s t1 t2 = forward s' t1 t2.
Proof. intros Hp Hw. unfold forward. now rewrite Hp, Hw. Qed.

(** Whatever the number of tokens, an array that [forward] returns has the
    shape [[B, L1, L2]]. *)
Lemma forward_returns_shape (s : MyLinearSimilarity A) (t1 t2 r : Tensor3 A)
    (B L1 L2 d d' : nat) :
  shape3 t1 = (B, L1, d) -> shape3 t2 = (B, L2, d') ->
  forward s t1 t2 = Ok r -> shape3 r = (B, L1, L2).
Proof.
  intros S1 S2. unfold forward.
  destruct (py_assert _ None) as [[]|e]; cbn [mbind result_bind]; [|discriminate].
  destruct (floordiv _ _) as [q|e]; cbn [mbind result_bind]; [|discriminate].
  destruct (py_mod _ _) as [m|e]; cbn [mbind result_bind]; [|discriminate].
  destruct (py_assert _ (Some _)) as [[]|e]; cbn [mbind result_bind]; [|discriminate].
  unfold matmul_3_1, mul_3_1. rewrite S1, S2.
  destruct (d =? _); cbn [mbind result_bind]; [|discriminate].
  destruct (d' =? _); cbn [mbind result_bind]; [|discriminate].
  destruct (bdim d _) as [n|]; cbn [mbind result_bind]; [|discriminate].
  unfold permute_021, matmul_3_3. rewrite S2. cbn [shape3 data3].
  destruct (n =? d'); cbn [mbind result_bind]; [|discriminate].
  rewrite bdim_same. cbn [mbind result_bind].
  unfold unsqueeze_2, unsqueeze_1, add_3_3. cbn [shape2 data2 shape3 data3].
  rewrite bdim_same, bdim_one_r, bdim_one_l. cbn [mbind result_bind shape3 data3].
  rewrite !bdim_same. now intros [= <-].
Qed.

(** With one or two tokens and a positive dimension, both assertions pass and
    the tensor library rejects a slice that is empty. *)
Lemma forward_few_tokens (s : MyLinearSimilarity A) (t1 t2 : Tensor3 A)
    (B L1 L2 d : nat) :
  shape3 t1 = (B, L1, d) -> shape3 t2 = (B, L2, d) ->
  0 < d -> 0 < _part s < 3 ->
  d * _part s = length (_weight_vector s) ->
  forward s t1 t2 = Raise RuntimeError.
Proof.
  intros S1 S2 Hd Hp Hw. unfold forward, last_dim. rewrite S1. simpl snd.
  rewrite <- Hw, Nat.eqb_refl. cbn [py_assert mbind result_bind].
  unfold floordiv, py_mod.
  destruct (_part s =? 0) eqn:E0; [apply Nat.eqb_eq in E0; lia|].
  cbn [mbind result_bind].
  rewrite Nat.div_mul by lia. rewrite Nat.Div0.mod_mul.
  cbn [Nat.eqb py_assert mbind result_bind].
  set (w := _weight_vector s) in *.
  assert (La : length (slice 0 d w) = d)
    by (unfold slice; rewrite length_firstn, length_skipn; nia).
  unfold matmul_3_1. rewrite S1, S2, La, Nat.eqb_refl. cbn [mbind result_bind].
  assert (Hcases : _part s = 1 \/ _part s = 2) by lia.
  destruct Hcases as [P|P]; rewrite P in Hw.
  - assert (Lb : length (slice d (2 * d) w) = 0)
      by (unfold slice; rewrite length_firstn, length_skipn; lia).
    rewrite Lb. destruct (d =? 0) eqn:E; [apply Nat.eqb_eq in E; lia|]. reflexivity.
  - assert (Lb : length (slice d (2 * d) w) = d)
      by (unfold slice; rewrite length_firstn, length_skipn; lia).
    assert (Lc : length (slice (2 * d) (3 * d) w) = 0)
      by (unfold slice; rewrite length_firstn, length_skipn; lia).
    rewrite Lb, Nat.eqb_refl. cbn [mbind result_bind].
    unfold mul_3_1. rewrite S1, Lc. unfold bdim.
    destruct (d =? 0) eqn:E; [apply Nat.eqb_eq in E; lia|].
    destruct (d =? 1) eqn:E1; [|reflexivity].
    cbn [mbind result_bind]. unfold permute_021, matmul_3_3. rewrite S2.
    cbn [shape3 data3]. rewrite Nat.eqb_sym, E. reflexivity.
Qed.
End ForwardFacts.

(** ** Construction *)

Lemma split_nonempty (sep : ascii) (s : string) : split sep s <> [].
Proof.
  destruct s as [|c s]; simpl; [discriminate|].
  destruct (Ascii.eqb c sep); [discriminate|].
  destruct (split sep s); discriminate.
Qed.

Lemma combination_dim_raises (piece : string) (dim1 dim2 : Z) (e : exn) :
  combination_dim piece dim1 dim2 = Raise e -> e = ConfigurationError.
Proof.
  unfold combination_dim.
  destruct (parse_token piece) as [[]|]; try destruct (dim1 =? dim2)%Z; congruence.
Qed.

Lemma combination_dim_ok (piece : string) (dim1 dim2 n : Z) :
  combination_dim piece dim1 dim2 = Ok n -> recognized piece.
Proof.
  unfold combination_dim, recognized.
  destruct (parse_token piece); [eauto | discriminate].
Qed.

Lemma combination_dim_same (piece : string) (d : Z) :
  recognized piece -> combination_dim piece d d = Ok d.
Proof.
  unfold combination_dim. intros [[] ->]; try reflexivity; now rewrite Z.eqb_refl.
Qed.

Lemma sum_dims_unrecognized (pieces : list string) (dim1 dim2 : Z) :
  Exists (fun piece => parse_token piece = None) pieces ->
  sum_dims pieces dim1 dim2 = Raise ConfigurationError.
Proof.
  induction 1 as [piece rest Hbad | piece rest Hex IH]; simpl.
  - unfold combination_dim. now rewrite Hbad.
  - destruct (combination_dim piece dim1 dim2) as [n|e] eqn:E; cbn [mbind result_bind].
    + now rewrite IH.
    + now rewrite (combination_dim_raises _ _ _ _ E).
Qed.

Lemma sum_dims_ok (pieces : list string) (dim1 dim2 n : Z) :
  sum_dims pieces dim1 dim2 = Ok n -> List.Forall recognized pieces.
Proof.
  revert n. induction pieces as [|piece rest IH]; intros n; simpl; [constructor|].
  destruct (combination_dim piece dim1 dim2) as [k|e] eqn:E;
    cbn [mbind result_bind]; [|discriminate].
  destruct (sum_dims rest dim1 dim2) as [m|e]; cbn [mbind result_bind]; [|discriminate].
  intros _. constructor; [eapply combination_dim_ok, E | eapply IH; reflexivity].
Qed.

Lemma sum_dims_same (pieces : list string) (d : Z) :
  List.Forall recognized pieces ->
  sum_dims pieces d d = Ok (Z.of_nat (length pieces) * d)%Z.
Proof.
  induction 1 as [|piece rest Hp _ IH]; [reflexivity|].
  cbn [sum_dims]. rewrite combination_dim_same by exact Hp.
  rewrite IH. cbn [mbind result_bind]. f_equal. cbn [length]. lia.
Qed.

(** [reset_parameters] never fails; it draws one sample per weight. *)
Lemma reset_parameters_run {F : Type} `{ParamArith F} (s : MyLinearSimilarity F)
    (w : World F) :
  let std := std_of (length (_weight_vector s)) in
  reset_parameters s w =
  (Ok (mkScorer (_combination s) (_part s)
         (map (fun k => add (mul (samples w (drawn w + k)) (fsub std (fneg std)))
                            (fneg std))
              (seq 0 (length (_weight_vector s))))
         (fill_ (_bias s) zero) (_activation s)),
   mkWorld (samples w) (drawn w + length (_weight_vector s)) (uninitialised w)
     (allocated w)).
Proof. reflexivity. Qed.

Lemma init_run {F : Type} `{ParamArith F} (d1 d2 n : Z) (combination : string)
    (activation : F -> F) (w : World F) :
  get_combined_dim combination d1 d2 = Ok n -> (0 <= n)%Z ->
  exists s w',
    __init__ d1 d2 combination activation w = (Ok s, w') /\
    _combination s = combination /\
    _part s = length (split comma combination) /\
    length (_weight_vector s) = Z.to_nat n /\
    _bias s = [zero] /\
    _activation s = activation /\
    allocated w' = allocated w ++ [Z.to_nat n; 1].
Proof.
  intros Hn Hpos. unfold __init__, lift, mbind, M_bind. rewrite Hn.
  unfold torch_Tensor. destruct (n <? 0)%Z eqn:E; [lia|].
  cbn [Z.ltb Z.compare allocated samples drawn uninitialised].
  rewrite reset_parameters_run.
  eexists _, _. split; [reflexivity|].
  cbn [_combination _part _weight_vector _bias _activation allocated].
  repeat split.
  - now rewrite !length_map, !length_seq.
  - now rewrite <- app_assoc.
Qed.

Lemma init_fails {F : Type} `{ParamArith F} (d1 d2 : Z) (combination : string)
    (activation : F -> F) (w : World F) (e : exn) :
  get_combined_dim combination d1 d2 = Raise e ->
  __init__ d1 d2 combination activation w = (Raise e, w).
Proof. intros He. unfold __init__, lift, mbind, M_bind. now rewrite He. Qed.

Lemma init_ok_dim {F : Type} `{ParamArith F} (d1 d2 : Z) (combination : string)
    (activation : F -> F) (w w' : World F) (s : MyLinearSimilarity F) :
  __init__ d1 d2 combination activation w = (Ok s, w') ->
  exists n, get_combined_dim combination d1 d2 = Ok n.
Proof.
  unfold __init__, lift, mbind, M_bind.
  destruct (get_combined_dim combination d1 d2) as [n|e]; [eauto | discriminate].
Qed.

Lemma init_ok_fields {F : Type} `{ParamArith F} (d1 d2 : Z) (combination : string)
    (activation : F -> F) (w w' : World F) (s : MyLinearSimilarity F) :
  __init__ d1 d2 combination activation w = (Ok s, w') ->
  exists n,
    get_combined_dim combination d1 d2 = Ok n /\ (0 <= n)%Z /\
    _combination s = combination /\
    _part s = length (split comma combination) /\
    length (_weight_vector s) = Z.to_nat n /\
    _bias s = [zero] /\
    _activation s = activation /\
    allocated w' = allocated w ++ [Z.to_nat n; 1].
Proof.
  intros Hrun.
  destruct (init_ok_dim _ _ _ _ _ _ _ Hrun) as [n Hn].
  destruct (Z.ltb_spec n 0) as [Hneg|Hpos].
  - exfalso. revert Hrun. unfold __init__, lift, mbind, M_bind. rewrite Hn.
    unfold torch_Tensor. apply Z.ltb_lt in Hneg. now rewrite Hneg.
  - destruct (init_run d1 d2 n combination activation w Hn Hpos)
      as (s0 & w0 & Hrun0 & Hfields).
    rewrite Hrun in Hrun0. injection Hrun0 as <- <-.
    exists n. tauto.
Qed.

(** ** Construction from a configuration object *)

Lemma pop_lookup (key : string) (dflt : pvalue) (params : gmap string pvalue) :
  pop key dflt params = (default dflt (params !! key), delete key params).
Proof.
  unfold pop. destruct (params !! key) eqn:E; [reflexivity|].
  simpl. now rewrite delete_id.
Qed.

Lemma from_params_unfold {F : Type} `{ParamArith F} (registry : gmap string (F -> F))
    (params : gmap string pvalue) (w : World F) :
  from_params registry params w =
  match params !! "tensor_1_dim" with
  | None => (Raise ConfigurationError, w)
  | Some v1 =>
      match as_int v1 with
      | Raise e => (Raise e, w)
      | Ok d1 =>
          match params !! "tensor_2_dim" with
          | None => (Raise ConfigurationError, w)
          | Some v2 =>
              match as_int v2 with
              | Raise e => (Raise e, w)
              | Ok d2 =>
                  match by_name registry
                          (default (PStr "linear") (params !! "activation")) with
                  | Raise e => (Raise e, w)
                  | Ok act =>
                      if decide (leftover params = ∅)
                      then match as_combination
                                   (default (PStr "x,y") (params !! "combination")) with
                           | Raise e => (Raise e, w)
                           | Ok comb => __init__ d1 d2 comb act w
                           end
                      else (Raise ConfigurationError, w)
                  end
              end
          end
      end
  end.
Proof.
  unfold from_params, pop_int, pop_required, lift, mbind, M_bind, result_bind.
  destruct (params !! "tensor_1_dim") as [v1|] eqn:E1; [|reflexivity].
  destruct (as_int v1) as [d1|e]; [|reflexivity].
  rewrite lookup_delete_ne by done.
  destruct (params !! "tensor_2_dim") as [v2|] eqn:E2; [|reflexivity].
  destruct (as_int v2) as [d2|e]; [|reflexivity].
  rewrite !pop_lookup.
  rewrite !lookup_delete_ne by done. fold (leftover params).
  destruct (by_name registry _) as [act|e]; [|reflexivity].
  unfold assert_empty.
  destruct (decide (leftover params = ∅)); [|reflexivity].
  destruct (as_combination _); reflexivity.
Qed.

Lemma leftover_lookup (params : gmap string pvalue) (key : string) :
  ~ In key known_keys -> leftover params !! key = params !! key.
Proof.
  intros Hk. unfold leftover, known_keys in *. simpl in Hk.
  rewrite !lookup_delete_ne by tauto. reflexivity.
Qed.

(** * The properties of the specification *)

Lemma has_shape_intro {A : Type} (t : Tensor3 A) (B L d : nat) :
  shape3 t = (B, L, d) ->
  length (data3 t) = B ->
  List.Forall (fun m => length m = L /\ List.Forall (fun r => length r = d) m) (data3 t) ->
  has_shape t B L d.
Proof.
  intros Hs Hl HF. split; [exact Hs|]. unfold wf3. rewrite Hs.
  split; [exact Hl|]. exact HF.
Qed.

Ltac shape_of_literal :=
  apply has_shape_intro; [reflexivity | reflexivity | repeat constructor].

(** C1 (amended): for every scorer with [part = 3] whose weight vector has
    length [3*d], and inputs [tensor_1] of shape [[batch, len_1, d]] and
    [tensor_2] of shape [[batch, len_2, d]], [forward] returns an array of
    shape [[batch, len_1, len_2]] whose entry [(b, i, j)] is
    [(tensor_1[b,i,:] . w_a) + (tensor_2[b,j,:] . w_b)
     + sum_k (tensor_1[b,i,k] * w_c[k]) * tensor_2[b,j,k]], the three
    weights being the consecutive slices of length [d]; on the example with
    [d = 2] and weights [[1,0,0,1,1,1]] the result is [[[[16]]]]. *)
Theorem forward_similarity :
  (forall (A : Type) (HA : Scalar A) (s : MyLinearSimilarity A)
          (t1 t2 : Tensor3 A) (batch len_1 len_2 d : nat),
      _part s = 3 ->
      length (_weight_vector s) = 3 * d ->
      has_shape t1 batch len_1 d ->
      has_shape t2 batch len_2 d ->
      exists r,
        forward s t1 t2 = Ok r /\
        has_shape r batch len_1 len_2 /\
        forall b i j, b < batch -> i < len_1 -> j < len_2 ->
          get3 r b i j = similarity (_weight_vector s) d t1 t2 b i j)
  /\ forward ex_scorer ex_t1 ex_t2 = Ok (mkT3 (1, 1, 1) [[[16%Z]]]).
Proof.
  split; [|reflexivity].
  intros A HA s t1 t2 batch len_1 len_2 d Hp Hw H1 H2.
  eexists. split; [|split].
  - apply (forward_value s t1 t2 batch len_1 len_2 d); trivial; lia.
  - apply tab_wf3.
  - intros b i j Hb Hi Hj. now apply get3_tab.
Qed.

Lemma forward_similarity_witness :
  (_part ex_scorer = 3 /\ length (_weight_vector ex_scorer) = 3 * 2 /\
   has_shape ex_t1 1 1 2 /\ has_shape ex_t2 1 1 2) /\
  exists r,
    forward ex_scorer ex_t1 ex_t2 = Ok r /\
    has_shape r 1 1 1 /\
    forall b i j, b < 1 -> i < 1 -> j < 1 ->
      get3 r b i j = similarity (_weight_vector ex_scorer) 2 ex_t1 ex_t2 b i j.
Proof.
  split.
  - repeat split; try reflexivity; repeat constructor.
  - apply (proj1 forward_similarity Z Z_scalar ex_scorer ex_t1 ex_t2 1 1 1 2);
      [reflexivity | reflexivity | shape_of_literal | shape_of_literal].
Defined.

(** C1 as stated fails: the default combination ["x,y"] with dimensions
    [(2, 1)] gives a weight vector of length [3 = 3*1], yet on inputs of
    shape [[1, 1, 1]] the first assertion fails and nothing is returned. *)
Lemma forward_similarity_needs_part_3 :
  length (_weight_vector xy_scorer_21) = 3 * 1 /\
  has_shape ex_unit 1 1 1 /\
  forward xy_scorer_21 ex_unit ex_unit = Raise (AssertionError None).
Proof. split; [reflexivity|]. split; [shape_of_literal | reflexivity]. Qed.

(** C2 (amended): for inputs [tensor_1] of shape [[B, L1, d]] and [tensor_2]
    of shape [[B, L2, d]] with [d * part = len(weight_vector)], an array that
    [forward] returns has shape exactly [[B, L1, L2]], and for every scorer
    with [part >= 3] [forward] does return such an array. *)
Theorem forward_shape (A : Type) (HA : Scalar A) (s : MyLinearSimilarity A)
    (t1 t2 : Tensor3 A) (B L1 L2 d : nat) :
  d * _part s = length (_weight_vector s) ->
  has_shape t1 B L1 d ->
  has_shape t2 B L2 d ->
  (forall r, forward s t1 t2 = Ok r -> shape3 r = (B, L1, L2)) /\
  (3 <= _part s ->
   exists r, forward s t1 t2 = Ok r /\ shape3 r = (B, L1, L2) /\ wf3 r).
Proof.
  intros Hw H1 H2. split.
  - intros r Hr. destruct H1 as [S1 _], H2 as [S2 _].
    exact (forward_returns_shape s t1 t2 r B L1 L2 d d S1 S2 Hr).
  - intros Hp. eexists. split; [|split].
    + apply (forward_value s t1 t2 B L1 L2 d); trivial; try lia; nia.
    + reflexivity.
    + apply tab_wf3.
Qed.

Lemma forward_shape_witness :
  (2 * _part ex_scorer = length (_weight_vector ex_scorer) /\
   has_shape ex_t1 1 1 2 /\ has_shape ex_t2 1 1 2 /\ 3 <= _part ex_scorer) /\
  exists r, forward ex_scorer ex_t1 ex_t2 = Ok r /\ shape3 r = (1, 1, 1) /\ wf3 r.
Proof.
  assert (S1 : has_shape ex_t1 1 1 2) by shape_of_literal.
  assert (S2 : has_shape ex_t2 1 1 2) by shape_of_literal.
  split.
  - split; [reflexivity|]. split; [exact S1|]. split; [exact S2 | apply le_n].
  - exact (proj2 (forward_shape Z Z_scalar ex_scorer ex_t1 ex_t2 1 1 1 2
                    eq_refl S1 S2) (le_n 3)).
Defined.

(** C2 as stated fails: with the default combination ["x,y"] and dimensions
    [(1, 1)], inputs of shape [[1, 1, 1]] satisfy [d * part = len(weight_vector)]
    and both assertions pass, but the third slice of the weights is empty and
    the tensor library rejects the product: no array is returned. *)
Lemma forward_shape_needs_three_slices :
  1 * _part xy_scorer_11 = length (_weight_vector xy_scorer_11) /\
  length (_weight_vector xy_scorer_11) mod _part xy_scorer_11 = 0 /\
  has_shape ex_unit 1 1 1 /\
  forward xy_scorer_11 ex_unit ex_unit = Raise RuntimeError.
Proof. repeat split; try reflexivity; repeat constructor. Qed.



(** C4: the stored bias and activation have no effect on [forward]: scorers
    that differ only in them give the same outcome on every pair of inputs;
    the bias is not added and the activation is not applied, so the example
    still scores [16] under a bias of [100] and an activation that is
    constantly [0]. *)
Theorem forward_ignores_bias_and_activation :
  (forall (A : Type) (HA : Scalar A) (combination : string) (part : nat)
          (weight_vector bias bias' : list A) (activation activation' : A -> A)
          (t1 t2 : Tensor3 A),
      forward (mkScorer combination part weight_vector bias activation) t1 t2 =
      forward (mkScorer combination part weight_vector bias' activation') t1 t2) /\
  forward (mkScorer "x,y,x*y" 3 [1; 0; 0; 1; 1; 1]%Z [100%Z] (fun _ => 0%Z)) ex_t1 ex_t2
  = Ok (mkT3 (1, 1, 1) [[[16%Z]]]).
Proof.
  split.
  - intros A HA combination part weight_vector bias bias' activation activation' t1 t2.
    now apply forward_reads.
  - reflexivity.
Qed.


Lemma R_std_of (n : nat) : std_of n = sqrt (6 / (INR n + 1)).
Proof. reflexivity. Qed.

Lemma binary32_std_of (n : nat) : std_of n = to32 (std64 n).
Proof. reflexivity. Qed.




(** In single precision the weights for the samples [0.0], [0.5] and
    [1 - 2^-24] and a weight vector of length [3] lie within the converted
    bounds. *)
Lemma binary32_samples_within_bounds :
  List.Forall (fun u =>
      fle (fneg (std_of 3)) (add (mul u (fsub (std_of 3) (fneg (std_of 3)))) (fneg (std_of 3)))
      /\ fle (add (mul u (fsub (std_of 3) (fneg (std_of 3)))) (fneg (std_of 3))) (std_of 3))
    ex_samples32.
Proof. repeat constructor. Qed.

(** In single precision the laws hold where they were tried: at the length
    [3] and the three samples. *)
Lemma binary32_laws_at_3 :
  fle (zero : spec_float) zero /\
  fle (width 3 : spec_float) (width 3) /\
  fle (fneg (std_of 3 : spec_float)) (add zero (fneg (std_of 3))) /\
  fle (add (width 3 : spec_float) (fneg (std_of 3))) (std_of 3) /\
  List.Forall (fun u : spec_float =>
      fle zero u /\ fle u fone /\
      fle zero (mul u (width 3)) /\ fle (mul u (width 3)) (width 3))
    ex_samples32.
Proof. repeat split; repeat constructor. Qed.

(** The message of the second assertion is never delivered. *)
Lemma forward_message_unreachable {A : Type} `{Scalar A} (s : MyLinearSimilarity A)
    (t1 t2 : Tensor3 A) (msg : string) :
  forward s t1 t2 <> Raise (AssertionError (Some msg)).
Proof.
  intros Hr.
  destruct (Nat.eq_dec (last_dim t1 * _part s) (length (_weight_vector s))) as [E|E].
  - destruct (forward_assert_passes s t1 t2 _ E Hr); discriminate.
  - rewrite (forward_assert_fails s t1 t2 E) in Hr. discriminate.
Qed.

(** C6 (the code departs from the claim): with weights of length [6] and
    [part = 3], a [tensor_1] whose last dimension is [3] violates
    [d * part = len(weight_vector)]; [forward] fails on its first assertion,
    which carries no message, whereas the message naming the shapes,
    ["torch.Size([6]) vs 3"], belongs to the second assertion. *)
Theorem forward_assertion_without_message :
  last_dim ex_t1_wide * _part ex_scorer <> length (_weight_vector ex_scorer) /\
  forward ex_scorer ex_t1_wide ex_t2 = Raise (AssertionError None) /\
  format_vs (length (_weight_vector ex_scorer)) (_part ex_scorer)
    = "torch.Size([6]) vs 3"%string.
Proof. split; [discriminate|]. split; reflexivity. Qed.

(** C7: a combination string with a token outside the six recognized forms
    makes construction raise [ConfigurationError] before anything is
    allocated (the world is left as it was); construction succeeds only when
    every comma-separated token is recognized. *)
Theorem init_rejects_unrecognized_token (F : Type) (HF : ParamArith F)
    (d1 d2 : Z) (combination : string)
    (activation : F -> F) (w : World F) :
  (Exists (fun piece => ~ recognized piece) (split comma combination) ->
   __init__ d1 d2 combination activation w = (Raise ConfigurationError, w)) /\
  (forall s w', __init__ d1 d2 combination activation w = (Ok s, w') ->
   List.Forall recognized (split comma combination)).
Proof.
  split.
  - intros Hex. apply init_fails. unfold get_combined_dim.
    apply sum_dims_unrecognized.
    eapply List.Exists_impl; [|exact Hex].
    intros piece Hn. unfold recognized in Hn.
    destruct (parse_token piece); [|reflexivity]. exfalso. apply Hn. eauto.
  - intros s w' Hrun. destruct (init_ok_dim _ _ _ _ _ _ _ Hrun) as [n Hn].
    eapply sum_dims_ok, Hn.
Qed.

Lemma init_rejects_unrecognized_token_witness :
  Exists (fun piece => ~ recognized piece) (split comma "x,z") /\
  __init__ 3 3 "x,z" (fun x => x) ex_world = (Raise ConfigurationError, ex_world).
Proof.
  assert (Hex : Exists (fun piece => ~ recognized piece) (split comma "x,z")).
  { apply Exists_cons_tl, Exists_cons_hd. intros [t Ht]. discriminate Ht. }
  split; [exact Hex|].
  exact (proj1 (init_rejects_unrecognized_token R R_arith 3 3 "x,z" (fun x => x) ex_world) Hex).
Defined.

(** C8: for every positive [d], construction with both dimensions [d] and a
    combination of exactly three recognized tokens succeeds with a weight
    vector of length [3*d] and a bias of length [1]; the combined dimension
    is the sum of the three tokens' dimensions, [d + d + d]. *)
Theorem init_three_tokens (F : Type) (HF : ParamArith F)
    (d : Z) (combination : string) (activation : F -> F)
    (w : World F) :
  (0 < d)%Z ->
  length (split comma combination) = 3 ->
  List.Forall recognized (split comma combination) ->
  exists s w',
    __init__ d d combination activation w = (Ok s, w') /\
    get_combined_dim combination d d = Ok (d + d + d)%Z /\
    Z.of_nat (length (_weight_vector s)) = (3 * d)%Z /\
    length (_bias s) = 1 /\
    _part s = 3 /\
    allocated w' = allocated w ++ [Z.to_nat (3 * d); 1].
Proof.
  intros Hd Hn Hrec.
  assert (Hdim : get_combined_dim combination d d = Ok (3 * d)%Z).
  { unfold get_combined_dim. rewrite sum_dims_same by exact Hrec. now rewrite Hn. }
  destruct (init_run d d (3 * d) combination activation w Hdim ltac:(lia))
    as (s & w' & Hrun & _ & Hpart & Hlen & Hbias & _ & Halloc).
  exists s, w'. split; [exact Hrun|].
  split; [rewrite Hdim; f_equal; lia|].
  split; [rewrite Hlen; lia|].
  split; [now rewrite Hbias|].
  split; [congruence | exact Halloc].
Qed.

Lemma init_three_tokens_witness :
  ((0 < 2)%Z /\ length (split comma "x,y,x*y") = 3 /\
   List.Forall recognized (split comma "x,y,x*y")) /\
  exists s w',
    __init__ 2 2 "x,y,x*y" (fun x => x) ex_world = (Ok s, w') /\
    get_combined_dim "x,y,x*y" 2 2 = Ok (2 + 2 + 2)%Z /\
    Z.of_nat (length (_weight_vector s)) = (3 * 2)%Z /\
    length (_bias s) = 1 /\
    _part s = 3 /\
    allocated w' = allocated ex_world ++ [Z.to_nat (3 * 2); 1].
Proof.
  assert (Hrec : List.Forall recognized (split comma "x,y,x*y")).
  { repeat constructor; eexists; reflexivity. }
  split.
  - split; [reflexivity|]. split; [reflexivity | exact Hrec].
  - exact (init_three_tokens R R_arith 2 "x,y,x*y" (fun x => x) ex_world
             eq_refl eq_refl Hrec).
Defined.

(** The configuration with the two dimensions only is accepted, with the
    default combination. *)
Lemma from_params_example :
  exists s w', from_params ex_registry ex_params ex_world = (Ok s, w') /\
               length (_weight_vector s) = 4 /\ _part s = 2.
Proof.
  rewrite from_params_unfold.
  change (ex_params !! "tensor_1_dim"%string) with (Some (PInt 2)).
  change (ex_params !! "tensor_2_dim"%string) with (Some (PInt 2)).
  change (ex_params !! "activation"%string) with (@None pvalue).
  change (ex_params !! "combination"%string) with (@None pvalue).
  cbn [default by_name as_combination].
  change (ex_registry !! "linear"%string) with (Some (fun x : R => x)).
  destruct (decide (leftover ex_params = ∅)) as [_|Hne].
  - destruct (init_run 2 2 4 "x,y" (fun x => x) ex_world eq_refl ltac:(lia))
      as (s & w' & Hrun & _ & Hp & Hl & _).
    exists s, w'. auto.
  - exfalso. apply Hne. apply map_eq. intros k. unfold leftover, ex_params.
    rewrite lookup_empty.
    destruct (decide (k = "activation"%string)) as [->|?]; [apply lookup_delete_eq|].
    rewrite lookup_delete_ne by done.
    destruct (decide (k = "combination"%string)) as [->|?]; [apply lookup_delete_eq|].
    rewrite lookup_delete_ne by done.
    destruct (decide (k = "tensor_2_dim"%string)) as [->|?]; [apply lookup_delete_eq|].
    rewrite lookup_delete_ne by done.
    destruct (decide (k = "tensor_1_dim"%string)) as [->|?]; [apply lookup_delete_eq|].
    rewrite lookup_delete_ne by done.
    rewrite !lookup_insert_ne by done. apply lookup_empty.
Qed.

Lemma ex_init_runs_3 :
  exists s w',
    __init__ 2 2 "x,y,x*y" (fun x : R => x) ex_world = (Ok s, w') /\
    _part s = 3 /\ _combination s = "x,y,x*y"%string.
Proof.
  destruct (init_run 2 2 6 "x,y,x*y" (fun x : R => x) ex_world eq_refl ltac:(lia))
    as (s & w' & Hrun & Hc & Hp & _).
  exists s, w'. auto.
Qed.

Lemma leftover_empty (params : gmap string pvalue) :
  (forall key, is_Some (params !! key) -> In key known_keys) ->
  leftover params = ∅.
Proof.
  intros Hkeys. apply map_eq. intros k. rewrite lookup_empty. unfold leftover.
  destruct (decide (k = "activation"%string)) as [->|N1]; [apply lookup_delete_eq|].
  rewrite lookup_delete_ne by done.
  destruct (decide (k = "combination"%string)) as [->|N2]; [apply lookup_delete_eq|].
  rewrite lookup_delete_ne by done.
  destruct (decide (k = "tensor_2_dim"%string)) as [->|N3]; [apply lookup_delete_eq|].
  rewrite lookup_delete_ne by done.
  destruct (decide (k = "tensor_1_dim"%string)) as [->|N4]; [apply lookup_delete_eq|].
  rewrite lookup_delete_ne by done.
  destruct (params !! k) as [v|] eqn:E; [|reflexivity].
  exfalso. specialize (Hkeys k (ex_intro _ v E)).
  unfold known_keys in Hkeys. simpl in Hkeys.
  destruct Hkeys as [?|[?|[?|[?|[]]]]]; congruence.
Qed.

Lemma python_int_examples :
  python_int "12" = Some 12%Z /\ python_int "-3" = Some (-3)%Z /\
  python_int "+2" = Some 2%Z /\ python_int " 7 " = Some 7%Z /\
  python_int "1_000" = Some 1000%Z /\ python_int "007" = Some 7%Z /\
  python_int "" = None /\ python_int "-" = None /\ python_int "1__0" = None /\
  python_int "_1" = None /\ python_int "1_" = None /\ python_int "- 1" = None /\
  python_int "x" = None.
Proof. repeat split. Qed.

(** C9: [from_params] reads [tensor_1_dim] and [tensor_2_dim] as required
    integers, [combination] with default ["x,y"] and [activation] with default
    ["linear"]; it fails when a required key is absent and when a key other
    than these four is present; when it succeeds, the scorer is the one the
    constructor builds from those four values, the activation being the one
    registered under the name read (the identity for the default, in a
    registry that has the identity under ["linear"]); and a configuration
    whose keys are among the four, given or left to their defaults, with
    integers for the dimensions, a string for the combination and a
    registered activation, is handed to the constructor with exactly those
    values. *)
Theorem from_params_spec (F : Type) (HF : ParamArith F)
    (registry : gmap string (F -> F)) (params : gmap string pvalue) (w : World F) :
  (params !! "tensor_1_dim" = None \/ params !! "tensor_2_dim" = None ->
   exists e, from_params registry params w = (Raise e, w)) /\
  (forall key, ~ In key known_keys -> is_Some (params !! key) ->
   exists e, from_params registry params w = (Raise e, w)) /\
  (forall s w', from_params registry params w = (Ok s, w') ->
   exists v1 v2 d1 d2 combination name activation,
     params !! "tensor_1_dim" = Some v1 /\ as_int v1 = Ok d1 /\
     params !! "tensor_2_dim" = Some v2 /\ as_int v2 = Ok d2 /\
     default (PStr "x,y") (params !! "combination") = PStr combination /\
     default (PStr "linear") (params !! "activation") = PStr name /\
     registry !! name = Some activation /\
     __init__ d1 d2 combination activation w = (Ok s, w') /\
     _combination s = combination /\
     _activation s = activation /\
     (registry !! "linear" = Some (fun x : F => x) ->
      params !! "activation" = None -> activation = fun x : F => x)) /\
  (forall v1 v2 d1 d2 combination name activation,
     params !! "tensor_1_dim" = Some v1 -> as_int v1 = Ok d1 ->
     params !! "tensor_2_dim" = Some v2 -> as_int v2 = Ok d2 ->
     default (PStr "x,y") (params !! "combination") = PStr combination ->
     default (PStr "linear") (params !! "activation") = PStr name ->
     registry !! name = Some activation ->
     (forall key, is_Some (params !! key) -> In key known_keys) ->
     from_params registry params w = __init__ d1 d2 combination activation w).
Proof.
  rewrite from_params_unfold. split; [|split; [|split]].
  - intros [E|E].
    + rewrite E. eauto.
    + destruct (params !! "tensor_1_dim") as [v1|]; eauto.
      destruct (as_int v1); eauto.
      rewrite E. eauto.
  - intros key Hkey Hsome.
    assert (Hleft : leftover params <> ∅).
    { intros Hempty. rewrite <- (leftover_lookup params key Hkey) in Hsome.
      rewrite Hempty, lookup_empty in Hsome. now destruct Hsome. }
    destruct (params !! "tensor_1_dim") as [v1|]; eauto.
    destruct (as_int v1); eauto.
    destruct (params !! "tensor_2_dim") as [v2|]; eauto.
    destruct (as_int v2); eauto.
    destruct (by_name registry _) as [act|e]; eauto.
    destruct (decide (leftover params = ∅)); [contradiction | eauto].
  - intros s w'.
    destruct (params !! "tensor_1_dim") as [v1|]; try discriminate.
    destruct (as_int v1) as [d1|?] eqn:I1; try discriminate.
    destruct (params !! "tensor_2_dim") as [v2|]; try discriminate.
    destruct (as_int v2) as [d2|?] eqn:I2; try discriminate.
    destruct (by_name registry _) as [act|?] eqn:Eact; try discriminate.
    destruct (decide (leftover params = ∅)) as [Hempty|?]; try discriminate.
    destruct (as_combination _) as [comb|?] eqn:Ecomb; try discriminate.
    intros Hrun.
    destruct (default (PStr "x,y") (params !! "combination")) as [?|comb'] eqn:Dc;
      try discriminate.
    injection Ecomb as ->.
    destruct (default (PStr "linear") (params !! "activation")) as [?|name] eqn:Dn;
      try discriminate.
    cbn [by_name] in Eact.
    destruct (registry !! name) as [f|] eqn:Ereg; try discriminate.
    injection Eact as ->.
    destruct (init_ok_fields _ _ _ _ _ _ _ Hrun) as (n & _ & _ & Hc & _ & _ & _ & Ha & _).
    exists v1, v2, d1, d2, comb, name, act. repeat split; trivial.
    intros Hlin Hnone. rewrite Hnone in Dn. injection Dn as <-.
    rewrite Hlin in Ereg. now injection Ereg.
  - intros v1 v2 d1 d2 combination name activation E1 I1 E2 I2 Dc Dn Hreg Hkeys.
    rewrite E1, I1, E2, I2, Dn, Dc. cbn [by_name as_combination]. rewrite Hreg.
    rewrite (leftover_empty params Hkeys).
    destruct (decide (∅ = ∅)) as [_|N]; [reflexivity | contradiction].
Qed.

Lemma ex_params_full_keys (key : string) :
  is_Some (ex_params_full !! key) -> In key known_keys.
Proof.
  unfold ex_params_full, known_keys. simpl.
  destruct (decide (key = "tensor_1_dim"%string)) as [->|N1]; [tauto|].
  destruct (decide (key = "tensor_2_dim"%string)) as [->|N2]; [tauto|].
  destruct (decide (key = "combination"%string)) as [->|N3]; [tauto|].
  destruct (decide (key = "activation"%string)) as [->|N4]; [tauto|].
  rewrite !lookup_insert_ne by done. rewrite lookup_empty.
  intros [v Hv]. discriminate Hv.
Qed.

Lemma from_params_spec_witness :
  (exists e, from_params ex_registry ∅ ex_world = (Raise e, ex_world)) /\
  (exists e, from_params ex_registry (<[ "bias"%string := PInt 1 ]> ex_params) ex_world
             = (Raise e, ex_world)) /\
  (exists s w', from_params ex_registry ex_params ex_world = (Ok s, w') /\
                _combination s = "x,y"%string /\ _activation s = fun x : R => x) /\
  (from_params ex_registry ex_params_full ex_world
   = __init__ 2 2 "x,y,x*y" (fun x : R => x) ex_world /\
   exists s w', from_params ex_registry ex_params_full ex_world = (Ok s, w') /\
                _part s = 3 /\ _combination s = "x,y,x*y"%string).
Proof.
  split; [|split; [|split]].
  - apply (proj1 (from_params_spec R R_arith ex_registry ∅ ex_world)).
    left. reflexivity.
  - apply (proj1 (proj2 (from_params_spec R R_arith ex_registry _ ex_world))
             "bias"%string).
    + unfold known_keys. simpl. intros [H|[H|[H|[H|[]]]]]; discriminate H.
    + exists (PInt 1). reflexivity.
  - destruct from_params_example as (s & w' & Hrun & _).
    destruct (proj1 (proj2 (proj2 (from_params_spec R R_arith ex_registry ex_params
                                      ex_world))) s w' Hrun)
      as (v1 & v2 & d1 & d2 & comb & name & act
          & _ & _ & _ & _ & Hc & _ & _ & _ & Hcs & Has & Hid).
    exists s, w'. split; [exact Hrun|]. split.
    + rewrite Hcs. now injection Hc.
    + rewrite Has. apply Hid; reflexivity.
  - assert (Hfull : from_params ex_registry ex_params_full ex_world
                    = __init__ 2 2 "x,y,x*y" (fun x : R => x) ex_world).
    { apply (proj2 (proj2 (proj2 (from_params_spec R R_arith ex_registry
                                    ex_params_full ex_world)))
               (PInt 2) (PStr " +2 ") 2%Z 2%Z "x,y,x*y"%string "linear"%string
               (fun x : R => x));
        try reflexivity.
      exact ex_params_full_keys. }
    split; [exact Hfull|].
    destruct ex_init_runs_3 as (s & w' & Hrun & Hp & Hc).
    exists s, w'. rewrite Hfull. auto.
Defined.

(** C10: the assertions of [forward] look at [tensor_1] only: whether an
    assertion fails does not depend on [tensor_2], and when the last dimension
    of [tensor_1] times [part] is the length of the weight vector no assertion
    fails, whatever the shape of [tensor_2]. *)
Theorem forward_asserts_ignore_tensor_2 (A : Type) (HA : Scalar A)
    (s : MyLinearSimilarity A) (t1 t2 : Tensor3 A) :
  (forall t2' msg, forward s t1 t2 = Raise (AssertionError msg) ->
                   forward s t1 t2' = Raise (AssertionError msg)) /\
  (last_dim t1 * _part s = length (_weight_vector s) ->
   forall msg, forward s t1 t2 <> Raise (AssertionError msg)).
Proof.
  split.
  - intros t2' msg Hr.
    destruct (Nat.eq_dec (last_dim t1 * _part s) (length (_weight_vector s))) as [E|E].
    + destruct (forward_assert_passes s t1 t2 _ E Hr); discriminate.
    + rewrite (forward_assert_fails s t1 t2 E) in Hr.
      rewrite (forward_assert_fails s t1 t2' E). exact Hr.
  - intros E msg Hr.
    destruct (forward_assert_passes s t1 t2 _ E Hr); discriminate.
Qed.

Lemma forward_asserts_ignore_tensor_2_witness :
  (last_dim ex_t1 * _part ex_scorer = length (_weight_vector ex_scorer) /\
   last_dim ex_t2_wide <> length (_weight_vector ex_scorer) / _part ex_scorer) /\
  (forall msg, forward ex_scorer ex_t1 ex_t2_wide <> Raise (AssertionError msg)) /\
  forward ex_scorer ex_t1 ex_t2_wide = Raise RuntimeError.
Proof.
  split; [split; [reflexivity | discriminate]|].
  split; [|reflexivity].
  exact (proj2 (forward_asserts_ignore_tensor_2 Z Z_scalar ex_scorer ex_t1 ex_t2_wide)
           eq_refl).
Defined.

(** * Further properties of the code *)

Section MoreForward.
Context {A : Type} `{Scalar A}.

Lemma slice_length_min {X : Type} (a b : nat) (w : list X) :
  length (slice a b w) = Nat.min (b - a) (length w - a).
Proof. unfold slice. now rewrite length_firstn, length_skipn. Qed.

Lemma slice_of_firstn {X : Type} (a b n : nat) (w : list X) :
  b <= n -> slice a b (firstn n w) = slice a b w.
Proof.
  intros Hb. unfold slice.
  destruct (Nat.le_gt_cases a n) as [Han|Han].
  - replace n with (a + (n - a)) at 1 by lia.
    rewrite <- firstn_skipn_comm, firstn_firstn. f_equal. lia.
  - replace (b - a) with 0 by lia. reflexivity.
Qed.

Lemma forward_prefix (s : MyLinearSimilarity A) (t1 t2 : Tensor3 A) :
  last_dim t1 * _part s = length (_weight_vector s) -> _part s <> 0 ->
  forward s t1 t2 =
  let w := _weight_vector s in
  let d := last_dim t1 in
  sim_1 ← matmul_3_1 t1 (slice 0 d w);
  sim_2 ← matmul_3_1 t2 (slice d (2 * d) w);
  sim_1_temp ← mul_3_1 t1 (slice (2 * d) (3 * d) w);
  sim_1_2 ← matmul_3_3 sim_1_temp (permute_021 t2);
  s12 ← add_3_3 (unsqueeze_2 sim_1) (unsqueeze_1 sim_2);
  add_3_3 s12 sim_1_2.
Proof.
  intros Hw Hp. unfold forward. rewrite <- Hw, Nat.eqb_refl.
  cbn [py_assert mbind result_bind]. unfold floordiv, py_mod.
  destruct (_part s =? 0) eqn:E0; [apply Nat.eqb_eq in E0; contradiction|].
  cbn [mbind result_bind].
  rewrite Nat.div_mul by exact Hp. rewrite Nat.Div0.mod_mul.
  reflexivity.
Qed.

Lemma forward_library_raises (s : MyLinearSimilarity A) (t1 t2 : Tensor3 A) (e : exn) :
  last_dim t1 * _part s = length (_weight_vector s) -> _part s <> 0 ->
  forward s t1 t2 = Raise e -> e = RuntimeError.
Proof.
  intros E P Hr. rewrite (forward_prefix s t1 t2 E P) in Hr. revert e Hr. cbv zeta.
  repeat (apply only_runtime_bind;
          [first [apply matmul_3_1_raises | apply mul_3_1_raises
                 | apply matmul_3_3_raises | apply add_3_3_raises] | intros ?]).
  apply add_3_3_raises.
Qed.

(** X1: an exception of [forward] is the bare [AssertionError] of the first
    assertion (exactly when [tensor_1.shape[-1] * part] is not the length of
    the weight vector), a [ZeroDivisionError] (only for [part = 0], which no
    constructed scorer has), or a [RuntimeError] of the tensor library; no
    other exception, and no assertion message, ever leaves it. *)
Theorem forward_exceptions (s : MyLinearSimilarity A) (t1 t2 : Tensor3 A) (e : exn) :
  forward s t1 t2 = Raise e ->
  (e = AssertionError None /\
   last_dim t1 * _part s <> length (_weight_vector s)) \/
  (e = ZeroDivisionError /\ _part s = 0 /\ length (_weight_vector s) = 0) \/
  (e = RuntimeError /\
   last_dim t1 * _part s = length (_weight_vector s) /\ _part s <> 0).
Proof.
  intros Hr.
  destruct (Nat.eq_dec (last_dim t1 * _part s) (length (_weight_vector s))) as [E|E].
  - destruct (Nat.eq_dec (_part s) 0) as [P|P].
    + right. left. revert Hr. unfold forward. rewrite <- E, Nat.eqb_refl.
      cbn [py_assert mbind result_bind]. unfold floordiv. rewrite P.
      cbn [Nat.eqb mbind result_bind]. intros [= <-].
      split; [reflexivity|]. split; [reflexivity | lia].
    + right. right. split; [|now split].
      exact (forward_library_raises s t1 t2 e E P Hr).
  - left. rewrite (forward_assert_fails s t1 t2 E) in Hr.
    injection Hr as <-. now split.
Qed.

(** X2: with at least three tokens, [forward] returns an array exactly when
    [tensor_1.shape[-1] * part] is the length of the weight vector, the two
    inputs have the same last dimension and their batch sizes are equal or
    one of them is [1]; the array then has the broadcast batch size and the
    two sequence lengths as its shape.  Sequence lengths are unconstrained. *)
Theorem forward_accepts_iff (s : MyLinearSimilarity A) (t1 t2 : Tensor3 A)
    (B1 B2 L1 L2 d1 d2 : nat) :
  shape3 t1 = (B1, L1, d1) ->
  shape3 t2 = (B2, L2, d2) ->
  3 <= _part s ->
  ((exists r, forward s t1 t2 = Ok r) <->
   d1 * _part s = length (_weight_vector s) /\ d2 = d1 /\ is_Some (bdim B1 B2)) /\
  (forall r, forward s t1 t2 = Ok r ->
   exists B, bdim B1 B2 = Some B /\ shape3 r = (B, L1, L2)).
Proof.
  intros S1 S2 Hp.
  destruct (Nat.eq_dec (d1 * _part s) (length (_weight_vector s))) as [E|E].
  2:{ assert (Hf : forward s t1 t2 = Raise (AssertionError None)).
      { apply forward_assert_fails. unfold last_dim. now rewrite S1. }
      rewrite Hf. split.
      - split; [intros [r Hr]; discriminate | intros [? _]; contradiction].
      - discriminate. }
  assert (E' : last_dim t1 * _part s = length (_weight_vector s))
    by (unfold last_dim; now rewrite S1).
  rewrite (forward_prefix s t1 t2 E') by lia. cbv zeta.
  unfold last_dim. rewrite S1. simpl snd.
  set (w := _weight_vector s) in *.
  assert (La : length (slice 0 d1 w) = d1) by (rewrite slice_length_min; nia).
  assert (Lb : length (slice d1 (2 * d1) w) = d1) by (rewrite slice_length_min; nia).
  assert (Lc : length (slice (2 * d1) (3 * d1) w) = d1)
    by (rewrite slice_length_min; nia).
  unfold matmul_3_1. rewrite S1, S2, La, Lb, Nat.eqb_refl. cbn [mbind result_bind].
  destruct (Nat.eqb_spec d2 d1) as [->|Hd]; cbn [mbind result_bind].
  2:{ split.
      - split; [intros [r Hr]; discriminate | intros (_ & ? & _); contradiction].
      - discriminate. }
  unfold mul_3_1. rewrite S1, Lc, bdim_same. cbn [mbind result_bind].
  unfold permute_021, matmul_3_3. rewrite S2. cbn [shape3 data3].
  rewrite Nat.eqb_refl.
  destruct (bdim B1 B2) as [B|] eqn:EB; cbn [mbind result_bind].
  2:{ split.
      - split; [intros [r Hr]; discriminate | intros (_ & _ & [? Hn]); discriminate].
      - discriminate. }
  unfold unsqueeze_2, unsqueeze_1, add_3_3. cbn [shape2 data2 shape3 data3].
  rewrite EB, bdim_one_r, bdim_one_l. cbn [mbind result_bind shape3 data3].
  rewrite !bdim_same. split.
  - split; [intros _; repeat split; eauto | intros _; eauto].
  - intros r [= <-]. eauto.
Qed.

Lemma forward_two_tokens (s : MyLinearSimilarity A) (t1 t2 r : Tensor3 A) :
  _part s = 2 -> 0 < last_dim t1 -> forward s t1 t2 <> Ok r.
Proof.
  intros P Hd.
  destruct (Nat.eq_dec (last_dim t1 * _part s) (length (_weight_vector s))) as [E|E].
  2:{ rewrite (forward_assert_fails s t1 t2 E). discriminate. }
  rewrite (forward_prefix s t1 t2 E) by lia. cbv zeta.
  rewrite P in E. revert E Hd. unfold last_dim.
  destruct (shape3 t1) as [[B1 L1] d] eqn:S1, (shape3 t2) as [[B2 L2] d2] eqn:S2.
  simpl snd. intros E Hd.
  set (w := _weight_vector s) in *.
  assert (La : length (slice 0 d w) = d) by (rewrite slice_length_min; lia).
  assert (Lb : length (slice d (2 * d) w) = d) by (rewrite slice_length_min; lia).
  assert (Lc : length (slice (2 * d) (3 * d) w) = 0) by (rewrite slice_length_min; lia).
  unfold matmul_3_1. rewrite S1, S2, La, Lb, Nat.eqb_refl. cbn [mbind result_bind].
  destruct (Nat.eqb_spec d2 d) as [->|Hne]; cbn [mbind result_bind]; [|discriminate].
  unfold mul_3_1. rewrite S1, Lc. unfold bdim at 1.
  destruct (Nat.eqb_spec d 0) as [?|_]; [lia|].
  destruct (Nat.eqb_spec d 1) as [->|_]; cbn [Nat.eqb mbind result_bind];
    [|discriminate].
  unfold permute_021, matmul_3_3. rewrite S2. cbn [shape3 data3 Nat.eqb mbind result_bind].
  discriminate.
Qed.
End MoreForward.

Section ForwardWeights.
Context {A : Type} `{Scalar A}.

Lemma forward_zero_part (s : MyLinearSimilarity A) (t1 t2 : Tensor3 A) :
  _part s = 0 -> length (_weight_vector s) = 0 ->
  forward s t1 t2 = Raise ZeroDivisionError.
Proof.
  intros P L. unfold forward. rewrite P, L, Nat.mul_0_r. reflexivity.
Qed.

(** X4: the weights past index [3 * tensor_1.shape[-1]] never influence
    [forward]: two scorers with the same [part] whose weight vectors have the
    same length and agree on that prefix give the same outcome, so with four
    or more tokens the slices of the further tokens are dead weights. *)
Theorem forward_ignores_trailing_weights (s s' : MyLinearSimilarity A)
    (t1 t2 : Tensor3 A) :
  _part s = _part s' ->
  length (_weight_vector s) = length (_weight_vector s') ->
  firstn (3 * last_dim t1) (_weight_vector s)
    = firstn (3 * last_dim t1) (_weight_vector s') ->
  forward s t1 t2 = forward s' t1 t2.
Proof.
  intros Hp Hl Hw.
  destruct (Nat.eq_dec (last_dim t1 * _part s) (length (_weight_vector s))) as [E|E].
  - destruct (Nat.eq_dec (_part s) 0) as [P|P].
    + rewrite !forward_zero_part; trivial; try congruence.
      * rewrite <- Hl, <- E, P. lia.
      * rewrite <- E, P. lia.
    + rewrite (forward_prefix s t1 t2 E P).
      rewrite (forward_prefix s' t1 t2) by congruence. cbv zeta.
      set (d := last_dim t1) in *.
      assert (Hs : forall a b, b <= 3 * d ->
                     slice a b (_weight_vector s) = slice a b (_weight_vector s')).
      { intros a b Hb.
        rewrite <- (slice_of_firstn a b (3 * d) (_weight_vector s)) by exact Hb.
        rewrite <- (slice_of_firstn a b (3 * d) (_weight_vector s')) by exact Hb.
        now rewrite Hw. }
      rewrite (Hs 0 d), (Hs d (2 * d)), (Hs (2 * d) (3 * d)) by lia.
      reflexivity.
  - rewrite !forward_assert_fails; trivial. congruence.
Qed.

(** X5: whether [forward] returns, the shape of what it returns and the
    exception it raises depend on the shapes of the inputs, on [part] and on
    the length of the weight vector only, never on an entry of an input or on
    the value of a weight. *)
Theorem forward_outcome_depends_on_shapes (s s' : MyLinearSimilarity A)
    (t1 t2 t1' t2' : Tensor3 A) :
  _part s = _part s' ->
  length (_weight_vector s) = length (_weight_vector s') ->
  shape3 t1 = shape3 t1' ->
  shape3 t2 = shape3 t2' ->
  outcome_shape (forward s t1 t2) = outcome_shape (forward s' t1' t2').
Proof.
  intros Hp Hl S1 S2.
  assert (Hd : last_dim t1' = last_dim t1) by (unfold last_dim; now rewrite S1).
  destruct (Nat.eq_dec (last_dim t1 * _part s) (length (_weight_vector s))) as [E|E].
  - destruct (Nat.eq_dec (_part s) 0) as [P|P].
    + rewrite !forward_zero_part; trivial; try congruence.
      * rewrite <- Hl, <- E, P. lia.
      * rewrite <- E, P. lia.
    + rewrite (forward_prefix s t1 t2 E P).
      rewrite (forward_prefix s' t1' t2') by congruence. cbv zeta.
      rewrite Hd. unfold last_dim. symmetry in S1, S2.
      destruct (shape3 t1) as [[B1 L1] d1] eqn:T1.
      destruct (shape3 t2) as [[B2 L2] d2] eqn:T2. simpl snd.
      unfold matmul_3_1, mul_3_1. rewrite S1, S2, T1, T2.
      rewrite !slice_length_min, <- Hl.
      destruct (d1 =? _); cbn [mbind result_bind outcome_shape]; [|reflexivity].
      destruct (d2 =? _); cbn [mbind result_bind outcome_shape]; [|reflexivity].
      destruct (bdim d1 _) as [n|]; cbn [mbind result_bind outcome_shape];
        [|reflexivity].
      unfold permute_021, matmul_3_3. rewrite S2, T2. cbn [shape3 data3].
      destruct (n =? d2); cbn [mbind result_bind outcome_shape]; [|reflexivity].
      destruct (bdim B1 B2) as [B|] eqn:EB; cbn [mbind result_bind outcome_shape];
        [|reflexivity].
      unfold unsqueeze_2, unsqueeze_1, add_3_3. cbn [shape2 data2 shape3 data3].
      rewrite EB, bdim_one_r, bdim_one_l. cbn [mbind result_bind shape3 data3].
      rewrite !bdim_same. reflexivity.
  - rewrite !forward_assert_fails; trivial. congruence.
Qed.

(** X6: when the third slice of the weights is zero, the bilinear term
    vanishes and every score is the sum of the two projections,
    [score_1[b,i] + score_2[b,j]], for scalars in which zero absorbs products
    and [0 + 0 = 0]. *)
Theorem forward_without_cross_weights (s : MyLinearSimilarity A) (t1 t2 : Tensor3 A)
    (batch len_1 len_2 d : nat) :
  (forall x : A, mul x zero = zero) ->
  (forall x : A, mul zero x = zero) ->
  add zero zero = zero ->
  _part s = 3 ->
  length (_weight_vector s) = 3 * d ->
  (forall k, k < d -> nth (2 * d + k) (_weight_vector s) zero = zero) ->
  has_shape t1 batch len_1 d ->
  has_shape t2 batch len_2 d ->
  exists r,
    forward s t1 t2 = Ok r /\
    forall b i j, b < batch -> i < len_1 -> j < len_2 ->
      get3 r b i j =
      add (add (sum_upto d (fun k => mul (get3 t1 b i k) (nth k (_weight_vector s) zero)))
               (sum_upto d (fun k =>
                  mul (get3 t2 b j k) (nth (d + k) (_weight_vector s) zero))))
          zero.
Proof.
  intros Hr0 Hl0 H00 Hp Hw Hc H1 H2.
  eexists. split.
  - apply (forward_value s t1 t2 batch len_1 len_2 d); trivial; lia.
  - intros b i j Hb Hi Hj. rewrite get3_tab by assumption.
    unfold similarity. f_equal.
    assert (Hz : forall n g, (forall k, k < n -> g k = zero) -> sum_upto n g = zero).
    { induction n as [|n IH]; intros g Hg; [reflexivity|].
      simpl. rewrite IH, Hg by auto. exact H00. }
    apply Hz. intros k Hk. now rewrite Hc, Hr0, Hl0.
Qed.
End ForwardWeights.

Section ForwardBatch.
Context {A : Type} `{Scalar A}.

(** X7: the batch sizes are not compared by [forward]: a [tensor_1] of batch
    size [1] is scored against every batch of [tensor_2], with the same
    result as if it had been repeated once per batch. *)
Theorem forward_broadcasts_batch (s : MyLinearSimilarity A) (t1 t2 : Tensor3 A)
    (B L1 L2 d : nat) :
  3 <= _part s ->
  d * _part s = length (_weight_vector s) ->
  has_shape t1 1 L1 d ->
  has_shape t2 B L2 d ->
  forward s t1 t2 = forward s (expand_batch B t1) t2 /\
  exists r, forward s t1 t2 = Ok r /\ shape3 r = (B, L1, L2).
Proof.
  intros Hp Hw H1 H2.
  pose proof (wf3_tab _ _ _ _ H1) as D1.
  pose proof (wf3_tab _ _ _ _ H2) as D2.
  destruct H1 as [S1 _]. pose proof H2 as [S2 _].
  change (tab 1 ?f) with [f 0] in D1.
  set (w := _weight_vector s) in *.
  assert (Hlen : 3 * d <= length w) by nia.
  (* the repeated input is well shaped *)
  assert (HX : expand_batch B t1 =
               mkT3 (B, L1, d)
                 (tab B (fun _ => tab L1 (fun i => tab d (fun k => get3 t1 0 i k))))).
  { unfold expand_batch. rewrite S1, D1. now rewrite expand_to_one. }
  assert (Hright :
    forward s (expand_batch B t1) t2 =
    Ok (mkT3 (B, L1, L2)
          (tab B (fun b => tab L1 (fun i => tab L2 (fun j =>
             similarity w d (expand_batch B t1) t2 b i j)))))).
  { apply forward_value.
    - rewrite HX. apply (tab_wf3 B L1 d (fun _ i k => get3 t1 0 i k)).
    - exact H2.
    - symmetry. exact Hw.
    - lia.
    - exact Hlen. }
  rewrite Hright.
  (* the computation on the input of batch size 1 *)
  assert (E' : last_dim t1 * _part s = length w)
    by (unfold last_dim; now rewrite S1).
  rewrite (forward_prefix s t1 t2 E') by lia. cbv zeta. fold w.
  unfold last_dim. rewrite S1. simpl snd.
  assert (La : length (slice 0 d w) = d) by (rewrite slice_length_min; lia).
  assert (Lb : length (slice d (2 * d) w) = d) by (rewrite slice_length_min; lia).
  assert (Lc : length (slice (2 * d) (3 * d) w) = d) by (rewrite slice_length_min; lia).
  unfold matmul_3_1. rewrite S1, S2, La, Lb, Nat.eqb_refl. cbn [mbind result_bind].
  unfold mul_3_1. rewrite S1, Lc, bdim_same. cbn [mbind result_bind].
  unfold permute_021, matmul_3_3. rewrite S2. cbn [shape3 data3].
  rewrite Nat.eqb_refl, bdim_one_l. cbn [mbind result_bind].
  unfold unsqueeze_2, unsqueeze_1, add_3_3. cbn [shape2 data2 shape3 data3].
  rewrite bdim_one_l, bdim_one_r, bdim_one_l. cbn [mbind result_bind shape3 data3].
  rewrite !bdim_same.
  split; [|eexists; split; reflexivity].
  f_equal. f_equal.
  rewrite D1, D2. clear D1 D2. cbn [map].
  rewrite !tab_map, !bzip_one_l, bzip_tab. apply tab_ext. intros b Hb.
  rewrite !tab_map, bzip_one_r. unfold mm. rewrite tab_map, bzip_tab.
  apply tab_ext. intros i Hi.
  change (map ?f (seq 0 L2)) with (tab L2 f).
  rewrite bzip_one_l, bzip_tab. apply tab_ext. intros j Hj.
  assert (G : forall k, k < d -> get3 (expand_batch B t1) b i k = get3 t1 0 i k).
  { intros k Hk. rewrite HX. now apply (get3_tab B L1 d (fun _ i k => get3 t1 0 i k)). }
  unfold similarity. f_equal; [f_equal|].
  - rewrite dot_tab by exact La. apply sum_upto_ext. intros k Hk.
    rewrite G by exact Hk. now rewrite (slice_nth 0 d k).
  - rewrite dot_tab by exact Lb. apply sum_upto_ext. intros k Hk.
    replace (2 * d) with (d + d) by lia. now rewrite slice_nth.
  - rewrite (tab_of_list (slice (2 * d) (3 * d) w) zero), Lc, bzip_tab.
    change (map ?f (seq 0 d)) with (tab d f).
    rewrite (tab_ext d (fun k => column k _) (fun k => tab L2 (fun i => get3 t2 b i k)))
      by (intros k Hk; now apply column_tab).
    rewrite column_tab by exact Hj.
    rewrite dot_tab by apply tab_length.
    apply sum_upto_ext. intros k Hk. rewrite tab_nth by exact Hk.
    rewrite G by exact Hk.
    replace (3 * d) with (2 * d + d) by lia. now rewrite slice_nth.
Qed.
End ForwardBatch.

(** ** Further properties of construction *)

Lemma init_run_full {F : Type} `{ParamArith F} (d1 d2 n : Z) (combination : string)
    (activation : F -> F) (w : World F) :
  get_combined_dim combination d1 d2 = Ok n -> (0 <= n)%Z ->
  let std := std_of (Z.to_nat n) in
  __init__ d1 d2 combination activation w =
  (Ok (mkScorer combination (length (split comma combination))
         (map (fun k => add (mul (samples w (drawn w + k)) (fsub std (fneg std)))
                            (fneg std))
              (seq 0 (Z.to_nat n)))
         [zero] activation),
   mkWorld (samples w) (drawn w + Z.to_nat n) (uninitialised w)
     (allocated w ++ [Z.to_nat n; 1])).
Proof.
  intros Hn Hpos. unfold __init__, lift, mbind, M_bind. rewrite Hn.
  unfold torch_Tensor. destruct (n <? 0)%Z eqn:E; [lia|].
  cbn [Z.ltb Z.compare allocated samples drawn uninitialised].
  rewrite reset_parameters_run.
  cbn [_combination _part _weight_vector _bias _activation].
  rewrite !length_map, !length_seq, <- app_assoc. reflexivity.
Qed.

Lemma init_cases {F : Type} `{ParamArith F}
    (d1 d2 : Z) (combination : string) (activation : F -> F) (w : World F) :
  (exists e, __init__ d1 d2 combination activation w = (Raise e, w)) \/
  (exists n, get_combined_dim combination d1 d2 = Ok n /\ (0 <= n)%Z).
Proof.
  destruct (get_combined_dim combination d1 d2) as [n|e] eqn:Hn.
  - destruct (Z.ltb_spec n 0) as [Hneg|Hpos].
    + left. exists RuntimeError. unfold __init__, lift, mbind, M_bind. rewrite Hn.
      unfold torch_Tensor. apply Z.ltb_lt in Hneg. now rewrite Hneg.
    + right. eauto.
  - left. exists e. now apply init_fails.
Qed.

Lemma init_raise_unchanged {F : Type} `{ParamArith F}
    (d1 d2 : Z) (combination : string) (activation : F -> F)
    (w w' : World F) (e : exn) :
  __init__ d1 d2 combination activation w = (Raise e, w') -> w' = w.
Proof.
  destruct (init_cases d1 d2 combination activation w) as [[e' He]|(n & Hn & Hpos)].
  - rewrite He. now intros [= _ <-].
  - rewrite (init_run_full d1 d2 n combination activation w Hn Hpos). discriminate.
Qed.

(** X8: construction is all or nothing: when [__init__] raises, nothing has
    been allocated and no sample drawn (the world is as before); when it
    succeeds, exactly two tensors have been allocated, the weight vector and
    then the bias of length [1], and exactly one sample per weight has been
    drawn from the generator. *)
Theorem init_all_or_nothing (F : Type) (HF : ParamArith F)
    (d1 d2 : Z) (combination : string) (activation : F -> F)
    (w : World F) :
  (forall e w', __init__ d1 d2 combination activation w = (Raise e, w') -> w' = w) /\
  (forall s w', __init__ d1 d2 combination activation w = (Ok s, w') ->
     allocated w' = allocated w ++ [length (_weight_vector s); 1] /\
     drawn w' = drawn w + length (_weight_vector s) /\
     samples w' = samples w /\
     uninitialised w' = uninitialised w).
Proof.
  split; [intros e w'; apply init_raise_unchanged|].
  destruct (init_cases d1 d2 combination activation w) as [[e He]|(n & Hn & Hpos)].
  - rewrite He. discriminate.
  - rewrite (init_run_full d1 d2 n combination activation w Hn Hpos). cbv zeta.
    intros s w' [= <- <-]. cbn [_weight_vector allocated drawn samples uninitialised].
    rewrite length_map, length_seq. repeat split.
Qed.

(** X9: a scorer that [__init__] returns has at least one token, as many as
    the combination has comma-separated pieces, stores the combination and
    the activation it was given, has as many weights as the generator was
    asked samples and a bias that is exactly [[0]]; on such a scorer
    [forward] never raises [ZeroDivisionError]. *)
Theorem init_establishes_invariants (F : Type) (HF : ParamArith F) (d1 d2 : Z)
    (combination : string) (activation : F -> F) (w w' : World F)
    (s : MyLinearSimilarity F) :
  __init__ d1 d2 combination activation w = (Ok s, w') ->
  1 <= _part s /\
  _part s = length (split comma combination) /\
  _combination s = combination /\
  _activation s = activation /\
  _bias s = [zero] /\
  drawn w' = drawn w + length (_weight_vector s) /\
  (forall t1 t2, forward s t1 t2 <> Raise ZeroDivisionError).
Proof.
  intros Hrun.
  destruct (init_cases d1 d2 combination activation w) as [[e He]|(n & Hn & Hpos)].
  { rewrite He in Hrun. discriminate. }
  rewrite (init_run_full d1 d2 n combination activation w Hn Hpos) in Hrun.
  cbv zeta in Hrun. injection Hrun as <- <-.
  cbn [_part _combination _activation _bias _weight_vector drawn].
  assert (Hpart : 1 <= length (split comma combination)).
  { pose proof (split_nonempty comma combination).
    destruct (split comma combination); [contradiction | simpl; lia]. }
  repeat split; trivial.
  - now rewrite length_map, length_seq.
  - intros t1 t2 Hz.
    match type of Hz with forward ?s0 _ _ = _ => set (s := s0) in * end.
    assert (P : _part s <> 0) by (cbn [s _part]; lia).
    destruct (Nat.eq_dec (last_dim t1 * _part s) (length (_weight_vector s))) as [E|E].
    + pose proof (forward_library_raises s t1 t2 _ E P Hz). discriminate.
    + rewrite (forward_assert_fails s t1 t2 E) in Hz. discriminate.
Qed.

(** X3: with exactly two tokens [forward] never returns an array for a
    [tensor_1] whose last dimension is positive, whatever [tensor_2] is: it
    fails on the first assertion or in the tensor library, where the third
    slice of the weights is empty.  In particular a scorer constructed with
    the default combination ["x,y"] scores no such input. *)
Theorem default_combination_never_scores :
  (forall (A : Type) (HA : Scalar A) (s : MyLinearSimilarity A) (t1 t2 r : Tensor3 A),
      _part s = 2 -> 0 < last_dim t1 -> forward s t1 t2 <> Ok r) /\
  (forall (F : Type) (HF : ParamArith F) (d1 d2 : Z) (activation : F -> F)
          (w w' : World F) (s : MyLinearSimilarity F) (t1 t2 r : Tensor3 F),
      __init__ d1 d2 "x,y" activation w = (Ok s, w') ->
      0 < last_dim t1 -> forward s t1 t2 <> Ok r).
Proof.
  split.
  - intros A HA s t1 t2 r. apply forward_two_tokens.
  - intros F HF d1 d2 activation w w' s t1 t2 r Hrun.
    destruct (init_ok_fields _ _ _ _ _ _ _ Hrun) as (n & _ & _ & _ & Hp & _).
    apply forward_two_tokens. exact Hp.
Qed.

Lemma split_length (s : string) :
  length (split comma s) = S (count_char comma s).
Proof.
  induction s as [|c s IH]; [reflexivity|].
  cbn [split count_char]. destruct (Ascii.eqb c comma).
  - cbn [length]. now rewrite IH.
  - destruct (split comma s) as [|h t].
    + discriminate IH.
    + exact IH.
Qed.

(** X10: the number of tokens of a constructed scorer is one more than the
    number of commas of the combination string, recognized tokens or not
    within them; the empty string counts as one token. *)
Theorem init_part_counts_commas (F : Type) (HF : ParamArith F)
    (d1 d2 : Z) (combination : string)
    (activation : F -> F) (w w' : World F) (s : MyLinearSimilarity F) :
  __init__ d1 d2 combination activation w = (Ok s, w') ->
  _part s = S (count_char comma combination).
Proof.
  intros Hrun.
  destruct (init_ok_fields _ _ _ _ _ _ _ Hrun) as (n & _ & _ & _ & Hp & _).
  rewrite Hp. apply split_length.
Qed.

(** X11: [reset_parameters] forgets the old parameters: the new weights and
    bias depend only on the lengths of the two tensors and on the samples the
    generator delivers next, so two scorers of the same sizes reset under
    generators that agree on the next samples end with the same parameters. *)
Theorem reset_parameters_forgets (F : Type) (HF : ParamArith F)
    (s1 s2 : MyLinearSimilarity F) (w1 w2 : World F) :
  length (_weight_vector s1) = length (_weight_vector s2) ->
  length (_bias s1) = length (_bias s2) ->
  (forall k, k < length (_weight_vector s1) ->
             samples w1 (drawn w1 + k) = samples w2 (drawn w2 + k)) ->
  exists s1' s2' w1' w2',
    reset_parameters s1 w1 = (Ok s1', w1') /\
    reset_parameters s2 w2 = (Ok s2', w2') /\
    _weight_vector s1' = _weight_vector s2' /\
    _bias s1' = _bias s2'.
Proof.
  intros Hl Hb Hs. rewrite !reset_parameters_run. cbv zeta.
  eexists _, _, _, _. split; [reflexivity|]. split; [reflexivity|].
  cbn [_weight_vector _bias]. split.
  - rewrite <- Hl. apply map_ext_in. intros k Hk. apply in_seq in Hk.
    rewrite Hs by lia. reflexivity.
  - unfold fill_. rewrite !map_const. now rewrite Hb.
Qed.

(** X12: [reset_parameters] can be invoked again: it allocates nothing, keeps
    the combination, [part], the activation and the lengths, and the second
    invocation takes the samples that follow those of the first, the weight
    at index [k] being [u * (std - (-std)) - std] for the sample [u] at
    position [drawn + len + k]. *)
Theorem reset_parameters_twice (F : Type) (HF : ParamArith F)
    (s : MyLinearSimilarity F) (w : World F) :
  exists s1 w1 s2 w2,
    reset_parameters s w = (Ok s1, w1) /\
    reset_parameters s1 w1 = (Ok s2, w2) /\
    allocated w2 = allocated w /\
    drawn w2 = drawn w + 2 * length (_weight_vector s) /\
    _combination s2 = _combination s /\
    _part s2 = _part s /\
    length (_weight_vector s2) = length (_weight_vector s) /\
    _bias s2 = _bias s1 /\
    forall k, k < length (_weight_vector s) ->
      nth k (_weight_vector s2) zero =
      add (mul (samples w (drawn w + length (_weight_vector s) + k))
               (fsub (std_of (length (_weight_vector s)))
                     (fneg (std_of (length (_weight_vector s))))))
          (fneg (std_of (length (_weight_vector s)))).
Proof.
  rewrite reset_parameters_run. cbv zeta. eexists _, _.
  rewrite reset_parameters_run. cbv zeta. eexists _, _.
  split; [reflexivity|]. split; [reflexivity|].
  cbn [_weight_vector _bias _combination _part allocated drawn samples].
  rewrite !length_map, !length_seq.
  repeat split.
  - lia.
  - unfold fill_. now rewrite map_map.
  - intros k Hk.
    set (f := fun k0 : nat => _).
    rewrite (nth_indep _ zero (f 0)) by now rewrite length_map, length_seq.
    rewrite (map_nth f (seq 0 (length (_weight_vector s))) 0 k).
    rewrite seq_nth by exact Hk. reflexivity.
Qed.

(** ** Further properties of [from_params] *)

Lemma leftover_insert_known (params : gmap string pvalue) (key : string) (v : pvalue) :
  In key known_keys -> leftover (<[key := v]> params) = leftover params.
Proof.
  intros Hk. apply map_eq. intros k. unfold leftover.
  destruct (decide (k = "activation"%string)) as [->|N1];
    [now rewrite !lookup_delete_eq|].
  rewrite !(lookup_delete_ne _ "activation"%string) by done.
  destruct (decide (k = "combination"%string)) as [->|N2];
    [now rewrite !lookup_delete_eq|].
  rewrite !(lookup_delete_ne _ "combination"%string) by done.
  destruct (decide (k = "tensor_2_dim"%string)) as [->|N3];
    [now rewrite !lookup_delete_eq|].
  rewrite !(lookup_delete_ne _ "tensor_2_dim"%string) by done.
  destruct (decide (k = "tensor_1_dim"%string)) as [->|N4];
    [now rewrite !lookup_delete_eq|].
  rewrite !(lookup_delete_ne _ "tensor_1_dim"%string) by done.
  apply lookup_insert_ne. intros ->.
  unfold known_keys in Hk. simpl in Hk.
  destruct Hk as [E|[E|[E|[E|[]]]]]; congruence.
Qed.

(** X13: giving a default explicitly changes nothing: a configuration without
    the key [combination] behaves as with [combination = "x,y"], and one
    without [activation] as with [activation = "linear"]. *)
Theorem from_params_explicit_defaults (F : Type) (HF : ParamArith F)
    (registry : gmap string (F -> F))
    (params : gmap string pvalue) (w : World F) :
  (params !! "combination" = None ->
   from_params registry (<["combination"%string := PStr "x,y"]> params) w
   = from_params registry params w) /\
  (params !! "activation" = None ->
   from_params registry (<["activation"%string := PStr "linear"]> params) w
   = from_params registry params w).
Proof.
  split; intros Hnone; rewrite !from_params_unfold.
  - rewrite leftover_insert_known by (unfold known_keys; simpl; tauto).
    rewrite lookup_insert_eq. rewrite !lookup_insert_ne by done.
    rewrite Hnone. reflexivity.
  - rewrite leftover_insert_known by (unfold known_keys; simpl; tauto).
    rewrite lookup_insert_eq. rewrite !lookup_insert_ne by done.
    rewrite Hnone. reflexivity.
Qed.

(** X14: a failed [from_params] leaves no trace: whatever exception it
    raises, nothing has been allocated and no sample drawn. *)
Theorem from_params_failure_leaves_world (F : Type) (HF : ParamArith F)
    (registry : gmap string (F -> F))
    (params : gmap string pvalue) (w w' : World F) (e : exn) :
  from_params registry params w = (Raise e, w') -> w' = w.
Proof.
  rewrite from_params_unfold.
  destruct (params !! "tensor_1_dim") as [v1|]; [|now intros [= _ <-]].
  destruct (as_int v1) as [d1|?]; [|now intros [= _ <-]].
  destruct (params !! "tensor_2_dim") as [v2|]; [|now intros [= _ <-]].
  destruct (as_int v2) as [d2|?]; [|now intros [= _ <-]].
  destruct (by_name registry _) as [act|?]; [|now intros [= _ <-]].
  destruct (decide (leftover params = ∅)) as [_|_]; [|now intros [= _ <-]].
  destruct (as_combination _) as [comb|?]; [|now intros [= _ <-]].
  apply init_raise_unchanged.
Qed.

(** X15: construction and scoring compose: a scorer constructed with both
    dimensions [d] and a combination of three tokens scores every pair of
    inputs of shapes [[B, L1, d]] and [[B, L2, d]], returning an array of
    shape [[B, L1, L2]] whose entries are given by the three slices of its
    weights. *)
Theorem init_then_forward (F : Type) (HF : ParamArith F)
    (d B L1 L2 : nat) (combination : string)
    (activation : F -> F) (w w' : World F) (s : MyLinearSimilarity F)
    (t1 t2 : Tensor3 F) :
  __init__ (Z.of_nat d) (Z.of_nat d) combination activation w = (Ok s, w') ->
  length (split comma combination) = 3 ->
  has_shape t1 B L1 d ->
  has_shape t2 B L2 d ->
  exists r,
    forward s t1 t2 = Ok r /\
    has_shape r B L1 L2 /\
    forall b i j, b < B -> i < L1 -> j < L2 ->
      get3 r b i j = similarity (_weight_vector s) d t1 t2 b i j.
Proof.
  intros Hrun Hn H1 H2.
  destruct (init_ok_fields _ _ _ _ _ _ _ Hrun)
    as (n & Hdim & _ & _ & Hp & Hl & _).
  assert (Hrec := sum_dims_ok _ _ _ _ Hdim).
  unfold get_combined_dim in Hdim. rewrite sum_dims_same in Hdim by exact Hrec.
  rewrite Hn in Hdim. injection Hdim as <-.
  assert (Hlen : length (_weight_vector s) = 3 * d) by (rewrite Hl; lia).
  eexists. split; [|split].
  - apply (forward_value s t1 t2 B L1 L2 d); trivial; lia.
  - apply tab_wf3.
  - intros b i j Hb Hi Hj. now apply get3_tab.
Qed.

(** ** Instances of the further properties *)

Lemma forward_exceptions_witness :
  forward ex_scorer ex_t1_wide ex_t2 = Raise (AssertionError None) /\
  last_dim ex_t1_wide * _part ex_scorer <> length (_weight_vector ex_scorer).
Proof.
  assert (Hr : forward ex_scorer ex_t1_wide ex_t2 = Raise (AssertionError None))
    by reflexivity.
  split; [exact Hr|].
  destruct (forward_exceptions ex_scorer ex_t1_wide ex_t2 _ Hr)
    as [[_ Hne]|[[Hz _]|[Hz _]]]; [exact Hne | discriminate Hz | discriminate Hz].
Defined.

Lemma forward_accepts_iff_witness :
  (3 <= _part ex_scorer) /\
  ((exists r, forward ex_scorer ex_t1 ex_t2_wide = Ok r) <->
   2 * _part ex_scorer = length (_weight_vector ex_scorer) /\ 5 = 2 /\
   is_Some (bdim 1 1)) /\
  (exists r, forward ex_scorer ex_t1 ex_t2_three = Ok r).
Proof.
  split; [apply le_n|]. split.
  - exact (proj1 (forward_accepts_iff ex_scorer ex_t1 ex_t2_wide 1 1 1 1 2 5
                    eq_refl eq_refl (le_n 3))).
  - apply (proj1 (forward_accepts_iff ex_scorer ex_t1 ex_t2_three 1 3 1 1 2 2
                    eq_refl eq_refl (le_n 3))).
    split; [reflexivity|]. split; [reflexivity|]. exists 3. reflexivity.
Defined.

Lemma ex_init_default_runs :
  exists s w', __init__ 1 1 "x,y" (fun x => x) ex_world = (Ok s, w').
Proof.
  rewrite (init_run_full 1 1 2 "x,y" (fun x => x) ex_world eq_refl); [|lia].
  eauto.
Qed.

Lemma default_combination_never_scores_witness :
  (_part xy_scorer_11 = 2 /\ 0 < last_dim ex_unit /\
   forall r, forward xy_scorer_11 ex_unit ex_unit <> Ok r) /\
  exists s w',
    __init__ 1 1 "x,y" (fun x => x) ex_world = (Ok s, w') /\
    forall r, forward s ex_runit ex_runit <> Ok r.
Proof.
  split.
  - split; [reflexivity|]. split; [apply le_n|].
    intros r.
    exact (proj1 default_combination_never_scores Z Z_scalar xy_scorer_11
             ex_unit ex_unit r eq_refl (le_n 1)).
  - destruct ex_init_default_runs as (s & w' & Hrun). exists s, w'.
    split; [exact Hrun|]. intros r.
    exact (proj2 default_combination_never_scores R R_arith 1%Z 1%Z (fun x => x)
             ex_world w' s
             ex_runit ex_runit r Hrun (le_n 1)).
Defined.

Lemma forward_ignores_trailing_weights_witness :
  _weight_vector ex_scorer_4 <> _weight_vector ex_scorer_4' /\
  forward ex_scorer_4 ex_t1 ex_t2 = forward ex_scorer_4' ex_t1 ex_t2.
Proof.
  split; [discriminate|].
  exact (forward_ignores_trailing_weights ex_scorer_4 ex_scorer_4' ex_t1 ex_t2
           eq_refl eq_refl eq_refl).
Defined.

Lemma forward_outcome_depends_on_shapes_witness :
  outcome_shape (forward ex_scorer ex_t1 ex_t2)
  = outcome_shape (forward ex_scorer_no_cross ex_t2 ex_t1) /\
  outcome_shape (forward ex_scorer ex_t1 ex_t2) = Ok (1, 1, 1).
Proof.
  split; [|reflexivity].
  exact (forward_outcome_depends_on_shapes ex_scorer ex_scorer_no_cross
           ex_t1 ex_t2 ex_t2 ex_t1 eq_refl eq_refl eq_refl eq_refl).
Defined.

Lemma forward_without_cross_weights_witness :
  exists r,
    forward ex_scorer_no_cross ex_t1 ex_t2 = Ok r /\
    forall b i j, b < 1 -> i < 1 -> j < 1 ->
      get3 r b i j =
      add (add (sum_upto 2 (fun k =>
                  mul (get3 ex_t1 b i k) (nth k (_weight_vector ex_scorer_no_cross) zero)))
               (sum_upto 2 (fun k =>
                  mul (get3 ex_t2 b j k)
                      (nth (2 + k) (_weight_vector ex_scorer_no_cross) zero))))
          zero.
Proof.
  apply (forward_without_cross_weights ex_scorer_no_cross ex_t1 ex_t2 1 1 1 2).
  - intros x. apply Z.mul_0_r.
  - intros x. reflexivity.
  - reflexivity.
  - reflexivity.
  - reflexivity.
  - intros [|[|k]] Hk; [reflexivity | reflexivity | lia].
  - shape_of_literal.
  - shape_of_literal.
Defined.

Lemma forward_broadcasts_batch_witness :
  forward ex_scorer ex_t1 ex_t2_three
  = forward ex_scorer (expand_batch 3 ex_t1) ex_t2_three /\
  exists r, forward ex_scorer ex_t1 ex_t2_three = Ok r /\ shape3 r = (3, 1, 1).
Proof.
  apply (forward_broadcasts_batch ex_scorer ex_t1 ex_t2_three 3 1 1 2).
  - apply le_n.
  - reflexivity.
  - shape_of_literal.
  - shape_of_literal.
Defined.

Lemma ex_init_runs :
  exists s w', __init__ 2 2 "x,y,x*y" (fun x => x) ex_world = (Ok s, w').
Proof.
  rewrite (init_run_full 2 2 6 "x,y,x*y" (fun x => x) ex_world eq_refl); [|lia].
  eauto.
Qed.

Lemma init_all_or_nothing_witness :
  __init__ 3 3 "x,z" (fun x => x) ex_world = (Raise ConfigurationError, ex_world) /\
  (forall e w', __init__ 3 3 "x,z" (fun x => x) ex_world = (Raise e, w') ->
                w' = ex_world) /\
  exists s w',
    __init__ 2 2 "x,y,x*y" (fun x => x) ex_world = (Ok s, w') /\
    allocated w' = allocated ex_world ++ [length (_weight_vector s); 1].
Proof.
  split; [now apply init_fails|]. split.
  - exact (proj1 (init_all_or_nothing R R_arith 3 3 "x,z" (fun x => x) ex_world)).
  - destruct ex_init_runs as (s & w' & Hrun). exists s, w'. split; [exact Hrun|].
    exact (proj1 (proj2 (init_all_or_nothing R R_arith 2 2 "x,y,x*y" (fun x => x) ex_world)
                    s w' Hrun)).
Defined.

Lemma init_establishes_invariants_witness :
  exists s w',
    __init__ 2 2 "x,y,x*y" (fun x => x) ex_world = (Ok s, w') /\
    1 <= _part s /\ _bias s = [0%R] /\
    forall t1 t2, forward s t1 t2 <> Raise ZeroDivisionError.
Proof.
  destruct ex_init_runs as (s & w' & Hrun). exists s, w'. split; [exact Hrun|].
  destruct (init_establishes_invariants R R_arith 2 2 "x,y,x*y" (fun x => x)
              ex_world w' s Hrun) as (Hp & _ & _ & _ & Hb & _ & Hz).
  split; [exact Hp|]. split; [exact Hb | exact Hz].
Defined.

Lemma init_part_counts_commas_witness :
  exists s w',
    __init__ 2 2 "x,y,x*y" (fun x => x) ex_world = (Ok s, w') /\ _part s = 3.
Proof.
  destruct ex_init_runs as (s & w' & Hrun). exists s, w'. split; [exact Hrun|].
  exact (init_part_counts_commas R R_arith 2 2 "x,y,x*y" (fun x => x) ex_world w' s Hrun).
Defined.

Lemma reset_parameters_forgets_witness :
  _weight_vector ex_real_scorer <> _weight_vector ex_real_scorer' /\
  exists s1' s2' w1' w2',
    reset_parameters ex_real_scorer ex_world = (Ok s1', w1') /\
    reset_parameters ex_real_scorer' ex_world_later = (Ok s2', w2') /\
    _weight_vector s1' = _weight_vector s2' /\
    _bias s1' = _bias s2'.
Proof.
  split.
  - simpl. intros E. injection E as E _. lra.
  - apply (reset_parameters_forgets R R_arith ex_real_scorer ex_real_scorer'
             ex_world ex_world_later); [reflexivity | reflexivity |].
    intros k _. reflexivity.
Defined.

Lemma from_params_explicit_defaults_witness :
  from_params ex_registry (<["combination"%string := PStr "x,y"]> ex_params) ex_world
  = from_params ex_registry ex_params ex_world.
Proof.
  apply (proj1 (from_params_explicit_defaults R R_arith ex_registry ex_params ex_world)).
  reflexivity.
Defined.

Lemma from_params_failure_leaves_world_witness :
  from_params ex_registry ∅ ex_world = (Raise ConfigurationError, ex_world) /\
  forall e w', from_params ex_registry ∅ ex_world = (Raise e, w') -> w' = ex_world.
Proof.
  split.
  - rewrite from_params_unfold. reflexivity.
  - intros e w'. exact (from_params_failure_leaves_world R R_arith ex_registry ∅ ex_world w' e).
Defined.

Lemma init_then_forward_witness :
  exists s w' r,
    __init__ 2 2 "x,y,x*y" (fun x => x) ex_world = (Ok s, w') /\
    forward s ex_rt1 ex_rt2 = Ok r /\
    has_shape r 1 1 1.
Proof.
  destruct ex_init_runs as (s & w' & Hrun).
  destruct (init_then_forward R R_arith 2 1 1 1 "x,y,x*y" (fun x => x) ex_world w' s
              ex_rt1 ex_rt2 Hrun eq_refl) as (r & Hr & Hs & _).
  - shape_of_literal.
  - shape_of_literal.
  - exists s, w', r. split; [exact Hrun|]. split; [exact Hr | exact Hs].
Defined.
